(** * moodlight-server: the authentication workflow and the daily question rotation

    A shallow embedding of [AuthService] (src/auth/auth.service.ts) and of
    [QuestionService] (question.service.ts), over tables kept as lists of rows
    in the order the database hands them out, and a store monad in which a
    call either completes normally or throws, the store surviving a throw
    (nothing in the services runs inside a transaction). *)

From Stdlib Require Import List String Bool Arith Lia.
Import ListNotations.
Open Scope string_scope.
Open Scope list_scope.
Open Scope nat_scope.

(** ** Completions *)

(** The values the services throw, or receive as rejections of a collaborator. *)
Inductive Thrown : Type :=
| ThrownString (message : string)            (* throw '...' *)
| UNAUTHORIZED_EXCEPTION                     (* constants/exception *)
| QueryFailedError (reason : string)         (* the persistence layer refuses a statement *)
| MailError                                  (* the mail transport rejects *)
| HttpException (status : nat) (message : string).

Inductive Completion (A : Type) : Type :=
| Normal (a : A)
| Throw (e : Thrown).
Arguments Normal {A} a.
Arguments Throw {A} e.

(** ** The store monad: [async] code over a store [S] *)

Definition M (S A : Type) : Type := S -> Completion A * S.

Definition ret {S A} (a : A) : M S A := fun s => (Normal a, s).

Definition bind {S A B} (m : M S A) (k : A -> M S B) : M S B :=
  fun s =>
    match m s with
    | (Normal a, s') => k a s'
    | (Throw e, s') => (Throw e, s')
    end.

Definition throw {S A} (e : Thrown) : M S A := fun s => (Throw e, s).

Definition gets {S A} (f : S -> A) : M S A := fun s => (Normal (f s), s).

Definition modify {S} (f : S -> S) : M S unit := fun s => (Normal tt, f s).

(** [try { body } catch (err) { handler(err) }] *)
Definition try_catch {S A} (body : M S A) (handler : Thrown -> M S A) : M S A :=
  fun s =>
    match body s with
    | (Normal a, s') => (Normal a, s')
    | (Throw e, s') => handler e s'
    end.

(** A call that touches no store: its completion is all there is. *)
Definition lift {S A} (c : Completion A) : M S A := fun s => (c, s).

Declare Scope store_scope.
Delimit Scope store_scope with store.
Notation "x <- m ;; k" := (bind m (fun x => k))
  (at level 61, m at next level, right associativity) : store_scope.
Notation "m ;; k" := (bind m (fun _ => k))
  (at level 61, right associativity) : store_scope.
Open Scope store_scope.

(** ** What a repository does to a table *)

Section Repository.
Context {Row : Type}.

(** [findOne(where)]: the first row, in table order, that meets the conditions. *)
Definition findOne (where_ : Row -> bool) (rows : list Row) : option Row :=
  find where_ rows.

(** [delete(where)] *)
Definition delete (where_ : Row -> bool) (rows : list Row) : list Row :=
  filter (fun r => negb (where_ r)) rows.

(** [update(where, partial)]: every row meeting the conditions takes the
    columns of the partial entity. *)
Definition update (where_ : Row -> bool) (set : Row -> Row) (rows : list Row) : list Row :=
  map (fun r => if where_ r then set r else r) rows.
End Repository.

(** Modelled from the spec: SUCCESS_RESPONSE of constants/response, which is
    not among the sources ("a generic success acknowledgment", "returns
    success status"). *)
Record StatusResponse : Type := { success : bool }.
Definition SUCCESS_RESPONSE : StatusResponse := {| success := true |}.

(** ** QuestionService *)

Module Question.
Record t : Type := mk {
  id : nat;
  contents : string;
  activated : bool;
  activated_date : string
}.
End Question.

Module QuestionService.

Record UpdateResult : Type := { affected : nat }.

Definition Store : Type := list Question.t.

(** [order: { id: 'DESC' }]: of the rows given, the one with the greatest id. *)
Fixpoint greatest_id (rows : list Question.t) : option Question.t :=
  match rows with
  | [] => None
  | q :: rest =>
      match greatest_id rest with
      | None => Some q
      | Some m => if Question.id m <? Question.id q then Some q else Some m
      end
  end.

(** [questionRepository.findOne({ where: { activated }, select: ['id'],
    ...(activated ? { order: { id: 'DESC' } } : {}) })?.id] *)
Definition find_id (activated : bool) (rows : Store) : option nat :=
  let where_ := fun q => Bool.eqb (Question.activated q) activated in
  option_map Question.id
    (if activated then greatest_id (filter where_ rows) else findOne where_ rows).

(** [questionRepository.update(id, partial)]. TypeORM rejects an update whose
    criteria are [undefined] before it reaches the database. *)
Definition questionRepository_update (id : option nat) (set : Question.t -> Question.t)
  : M Store UpdateResult :=
  match id with
  | None => throw (QueryFailedError "Empty criteria(s) are not allowed for the update method.")
  | Some i =>
      fun rows =>
        let where_ := fun q => Question.id q =? i in
        (Normal {| affected := List.length (filter where_ rows) |}, update where_ set rows)
  end.

(** [activateQuestionTemplate(activated)] returns a function; the value below
    is that function, and nothing runs until it is called. [today] is what
    [moment().format('YYYY-MM-DD')] yields at the call. *)
Definition activateQuestionTemplate (today : string) (activated : bool) : M Store UpdateResult :=
  id <- gets (find_id activated) ;;
  let activated_date := today in
  questionRepository_update id
    (fun q => Question.mk (Question.id q) (Question.contents q) (negb activated) activated_date).

(** What [Promise.all] is handed: a promise (the call it stands for), or any
    other value, which is passed through as it is. *)
Inductive Awaitable (S A : Type) : Type :=
| APromise (call : M S A)
| AValue (a : A).
Arguments APromise {S A} call.
Arguments AValue {S A} a.

Fixpoint Promise_all {S A} (items : list (Awaitable S A)) : M S (list A) :=
  match items with
  | [] => ret []
  | item :: rest =>
      a <- match item with
           | APromise call => call
           | AValue a => ret a
           end ;;
      others <- Promise_all rest ;;
      ret (a :: others)
  end.

(** [setTimeout(callback, ms)]: the callback runs once the timer fires. *)
Definition setTimeout {S} (callback : M S unit) (ms : nat) : M S unit := callback.

(** [updateTodayQuestion()], the cron entry point (the [console.log] line
    writes to no store). The two elements of the array are the functions
    [activateQuestionTemplate] returned. *)
Definition updateTodayQuestion (today : string) : M Store unit :=
  setTimeout
    (_ <- Promise_all [AValue (activateQuestionTemplate today true);
                       AValue (activateQuestionTemplate today false)] ;;
     ret tt)
    1000.

Definition findQuestionById (id : nat) (rows : Store) : option Question.t :=
  findOne (fun q => Question.id q =? id) rows.

(** [findQuestion(activated_date)] *)
Definition findQuestion (activated_date : string) (rows : Store) : option Question.t :=
  findOne (fun q => String.eqb (Question.activated_date q) activated_date
                    && Bool.eqb (Question.activated q) true) rows.

(** The activated questions of a store. *)
Definition activated_questions (rows : Store) : list Question.t :=
  filter Question.activated rows.

(** Is the question with this id activated ([false] when there is none)? *)
Definition is_activated (id : nat) (rows : Store) : bool :=
  match findQuestionById id rows with
  | Some q => Question.activated q
  | None => false
  end.

End QuestionService.

(** ** AuthService: the data model *)

Inductive Mode : Type :=
| Mode_join               (* 'join' *)
| Mode_change_password.   (* 'change_password' *)

Definition Mode_eqb (a b : Mode) : bool :=
  match a, b with
  | Mode_join, Mode_join => true
  | Mode_change_password, Mode_change_password => true
  | _, _ => false
  end.

(** The object [{ password, is_admin }] that the [user] column of a
    verification carries as JSON text. The text is modelled by the object it
    encodes: [JSON.parse] gives back what [JSON.stringify] was given. *)
Record PendingUser : Type := {
  pending_password : string;
  pending_is_admin : bool
}.

(** Modelled from the spec: the Verification entity, which is not among the
    sources ("id, email, nickname (optional, required for join mode),
    confirm_code, mode, serialized pending-user payload"), with the column
    names the service uses. *)
Module Verification.
Record t : Type := mk {
  id : nat;
  email : string;
  nickname : option string;     (* NULL in a change_password row *)
  confirmCode : string;
  mode : Mode;
  user : option PendingUser     (* NULL in a change_password row *)
}.
End Verification.

(** Modelled from the spec: the User entity, which is not among the sources
    ("id, email, nickname, password (hashed), is_admin (boolean), firebase
    push token (optional)"). *)
Module User.
Record t : Type := mk {
  id : nat;
  email : string;
  nickname : string;
  password : string;
  is_admin : bool;
  firebaseToken : option string
}.
End User.

(** The request objects, with the fields the service reads from them. *)
Module JoinDto.
Record t : Type := mk {
  email : string;
  password : string;
  nickname : string;
  adminKey : option string
}.
End JoinDto.

(** [ConfirmDto]: the email and the code, and the mode a client may name for
    [checkConfirmCode] ([confirm] overrides it with 'join'). *)
Module ConfirmDto.
Record t : Type := mk {
  email : string;
  confirmCode : string;
  mode : option Mode
}.
End ConfirmDto.

Module LoginDto.
Record t : Type := mk {
  email : string;
  password : string
}.
End LoginDto.

Module ChangePasswordDto.
Record t : Type := mk {
  userId : nat;
  password : string;
  newPassword : string
}.
End ChangePasswordDto.

Module ConfirmChangePasswordNotLoggedInDto.
Record t : Type := mk {
  email : string;
  confirmCode : string;
  password : string
}.
End ConfirmChangePasswordNotLoggedInDto.

Record Mail : Type := {
  from : option string;
  to : string;
  subject : string;
  html : string
}.

(** [FindConditions<User>] as the service builds them: [{ id }] or [{ email }]. *)
Inductive UserWhere : Type :=
| WhereId (id : nat)
| WhereEmail (email : string).

Definition user_meets (w : UserWhere) (u : User.t) : bool :=
  match w with
  | WhereId id => User.id u =? id
  | WhereEmail email => String.eqb (User.email u) email
  end.

(** [a === b] on values that are a string or [undefined]. *)
Definition option_string_eqb (a b : option string) : bool :=
  match a, b with
  | Some x, Some y => String.eqb x y
  | None, None => true
  | _, _ => false
  end.

(** The two tables, their auto-increment counters, and the mail that left. *)
Record State : Type := {
  users : list User.t;
  verifications : list Verification.t;
  nextUserId : nat;
  nextVerificationId : nat;
  outbox : list Mail
}.

Definition initial : State :=
  {| users := []; verifications := []; nextUserId := 1; nextVerificationId := 1; outbox := [] |}.

Definition with_users (f : list User.t -> list User.t) (s : State) : State :=
  {| users := f (users s); verifications := verifications s;
     nextUserId := nextUserId s; nextVerificationId := nextVerificationId s;
     outbox := outbox s |}.

Definition with_verifications (f : list Verification.t -> list Verification.t) (s : State) : State :=
  {| users := users s; verifications := f (verifications s);
     nextUserId := nextUserId s; nextVerificationId := nextVerificationId s;
     outbox := outbox s |}.

(** What a call draws from outside the stores: configuration, [Math.random],
    bcrypt, the mail transport. *)
Record Env : Type := {
  ADMIN_KEY : option string;                 (* configService.get('ADMIN_KEY') *)
  EMAIL_ADDRESS : option string;             (* configService.get('EMAIL_ADDRESS') *)
  random_index : nat -> nat;                 (* Math.floor(Math.random() * CHARS.length) at turn i *)
  bcrypt_genSalt : nat -> string;
  bcrypt_hash : string -> string -> string;
  bcrypt_compare : string -> string -> bool;
  transporter_delivers : Mail -> bool        (* does transporter.sendMail resolve? *)
}.

(** The error boundary: it is handed what was caught, and either returns to the
    caller or throws in its turn. *)
Definition ErrorBoundary : Type := Thrown -> Completion unit.

(** Modelled from the spec: exceptionHandler of utils/error, which is not among
    the sources. "A single function that accepts any thrown value and produces
    a uniform user-facing failure object"; "errors are surfaced via the shared
    error channel, not via the return value". The failure object goes to that
    channel, which is no part of the stores, and control returns to the
    caller. *)
Definition exceptionHandler_of_spec : ErrorBoundary := fun _ => Normal tt.

(** For the examples, an error boundary of the other kind: it throws an HTTP
    failure built from what it was handed. *)
Definition exceptionHandler_throwing : ErrorBoundary :=
  fun err =>
    match err with
    | ThrownString message => Throw (HttpException 409 message)
    | UNAUTHORIZED_EXCEPTION => Throw (HttpException 401 "Unauthorized")
    | QueryFailedError reason => Throw (HttpException 409 reason)
    | MailError => Throw (HttpException 409 "mail")
    | HttpException status message => Throw (HttpException status message)
    end.

(** ** The stores behind the repositories *)

(** Modelled from the spec: findUserByEmail and findUserByNickname of
    user.service, which is not among the sources ("UserStore: findByEmail,
    findByNickname"): the user with that email, with that nickname. *)
Definition findUserByEmail (email : string) : M State (option User.t) :=
  gets (fun s => findOne (fun u => String.eqb (User.email u) email) (users s)).

Definition findUserByNickname (nickname : string) : M State (option User.t) :=
  gets (fun s => findOne (fun u => String.eqb (User.nickname u) nickname) (users s)).

(** Modelled from the spec: the columns of the User entity, which is not among
    the sources ("email (unique), nickname (unique)"; "uniqueness ... rely
    entirely on the persistence layer's constraints (unique indexes)"): the
    table refuses a row whose email or nickname another row has. *)
Definition user_insert_allowed (rows : list User.t) (email nickname : string) : bool :=
  negb (existsb (fun u => String.eqb (User.email u) email
                          || String.eqb (User.nickname u) nickname) rows).

(** [userRepository.save(userRepository.create({ email, nickname,
    ...JSON.parse(user) }))]: the row gets the next id; a row without a
    nickname or without a password is refused as one breaking uniqueness is. *)
Definition userRepository_save (email : string) (nickname : option string)
    (parsed : option PendingUser) : M State unit :=
  fun s =>
    match nickname, parsed with
    | Some nick, Some p =>
        if user_insert_allowed (users s) email nick then
          (Normal tt,
           {| users := users s ++ [User.mk (nextUserId s) email nick
                                     (pending_password p) (pending_is_admin p) None];
              verifications := verifications s;
              nextUserId := S (nextUserId s);
              nextVerificationId := nextVerificationId s;
              outbox := outbox s |})
        else (Throw (QueryFailedError "Duplicate entry"), s)
    | _, _ => (Throw (QueryFailedError "Column cannot be null"), s)
    end.

(** Modelled from the spec: the mode column of the Verification entity,
    which is not among the sources. [join] creates its row without naming a
    mode, and "for all joins with a fresh email/nickname pair, exactly one
    verification record exists afterward with mode=join": a row created
    without a mode is a join row. *)
Definition Verification_default_mode : Mode := Mode_join.

(** [verificationRepository.save(verificationRepository.create(row))]: the row
    gets the next id. *)
Definition verificationRepository_save (email : string) (nickname : option string)
    (confirmCode : string) (mode : Mode) (user : option PendingUser) : M State unit :=
  fun s =>
    (Normal tt,
     {| users := users s;
        verifications := verifications s
                         ++ [Verification.mk (nextVerificationId s) email nickname confirmCode mode user];
        nextUserId := nextUserId s;
        nextVerificationId := S (nextVerificationId s);
        outbox := outbox s |}).

(** [verificationRepository.update(id, partial)] *)
Definition verificationRepository_update (id : nat) (set : Verification.t -> Verification.t)
  : M State unit :=
  modify (with_verifications (update (fun v => Verification.id v =? id) set)).

(** [userRepository.update(find, partial)] *)
Definition userRepository_update (find : UserWhere) (set : User.t -> User.t) : M State unit :=
  modify (with_users (update (user_meets find) set)).

Definition verification_is (email : string) (mode : Mode) (v : Verification.t) : bool :=
  String.eqb (Verification.email v) email && Mode_eqb (Verification.mode v) mode.

Definition verification_has_code (email confirmCode : string) (mode : Mode)
    (v : Verification.t) : bool :=
  String.eqb (Verification.email v) email
  && String.eqb (Verification.confirmCode v) confirmCode
  && Mode_eqb (Verification.mode v) mode.

(** ** AuthService: the operations *)

Module AuthService.
Section Workflow.

Variable exceptionHandler : ErrorBoundary.
Variable env : Env.

Definition findVerification (email : string) (mode : Mode) : M State (option Verification.t) :=
  gets (fun s => findOne (verification_is email mode) (verifications s)).

Definition deleteVerification (email : string) (mode : Mode) : M State unit :=
  modify (with_verifications (delete (verification_is email mode))).

Definition CHARS : string := "0123456789".
Definition VERIFY_NUMBER_LENGTH : nat := 6.

(** The [for] loop of [createConfirmCode], [turns] turns from turn [i] on. *)
Fixpoint createConfirmCode_loop (i turns : nat) (verifyNumber : string) : string :=
  match turns with
  | 0 => verifyNumber
  | S turns' =>
      let n := random_index env i in
      createConfirmCode_loop (S i) turns' (verifyNumber ++ substring n 1 CHARS)%string
  end.

Definition createConfirmCode : string :=
  createConfirmCode_loop 0 VERIFY_NUMBER_LENGTH "".

Definition encryptPassword (plain : string) : string :=
  let salt := bcrypt_genSalt env 12 in
  bcrypt_hash env plain salt.

(** The mail [sendConfirmEmail] hands to the transport. *)
Definition confirm_mail (email confirmCode : string) : Mail :=
  {| from := EMAIL_ADDRESS env;
     to := email;
     subject := "[무드등] 이메일 인증이 필요합니다";
     html := ("인증번호: " ++ confirmCode)%string |}.

Definition sendConfirmEmail (email confirmCode : string) : M State unit :=
  let mail := confirm_mail email confirmCode in
  if transporter_delivers env mail then
    modify (fun s => {| users := users s; verifications := verifications s;
                        nextUserId := nextUserId s;
                        nextVerificationId := nextVerificationId s;
                        outbox := outbox s ++ [mail] |})
  else throw MailError.

Inductive Availability : Type := Email | Nickname | available.

Definition Availability_text (a : Availability) : string :=
  match a with
  | Email => "Email"
  | Nickname => "Nickname"
  | available => "available"
  end.

Definition is_some {A} (o : option A) : bool :=
  match o with Some _ => true | None => false end.

Definition checkJoinDataAvailability (email nickname : string) : M State Availability :=
  verificationIsExist <-
    gets (fun s => findOne (fun v => option_string_eqb (Verification.nickname v) (Some nickname))
                     (verifications s)) ;;
  nicknameIsExist <- findUserByNickname nickname ;;
  emailIsExist <- findUserByEmail email ;;
  if is_some nicknameIsExist || is_some emailIsExist || is_some verificationIsExist then
    ret (if is_some emailIsExist then Email else Nickname)
  else ret available.

(** The [try] block of [join]. *)
Definition join_try (dto : JoinDto.t) : M State unit :=
  let email := JoinDto.email dto in
  let plain := JoinDto.password dto in
  let nickname := JoinDto.nickname dto in
  let adminKey := JoinDto.adminKey dto in
  emailHasVerification <- findVerification email Mode_join ;;
  let confirmCode := createConfirmCode in
  let password := encryptPassword plain in
  let user := {| pending_password := password;
                 pending_is_admin := option_string_eqb adminKey (ADMIN_KEY env) |} in
  match emailHasVerification with
  | Some found =>
      verificationRepository_update (Verification.id found)
        (fun v => Verification.mk (Verification.id v) email (Some nickname) confirmCode
                    (Verification.mode v) (Some user))
  | None =>
      joinDataAvailability <- checkJoinDataAvailability email nickname ;;
      match joinDataAvailability with
      | available =>
          verificationRepository_save email (Some nickname) confirmCode
            Verification_default_mode (Some user)
      | _ => throw (ThrownString (Availability_text joinDataAvailability ++ " already exists.")%string)
      end
  end ;;
  sendConfirmEmail email confirmCode.

Definition join (dto : JoinDto.t) : M State StatusResponse :=
  try_catch (join_try dto) (fun err => lift (exceptionHandler err)) ;;
  ret SUCCESS_RESPONSE.

(** The [try] block of [confirm]. *)
Definition confirm_try (confirmDto : ConfirmDto.t) : M State unit :=
  verification <-
    gets (fun s => findOne (verification_has_code (ConfirmDto.email confirmDto)
                              (ConfirmDto.confirmCode confirmDto) Mode_join)
                     (verifications s)) ;;
  match verification with
  | None => throw (ThrownString "Verification does not exists.")
  | Some found =>
      let email := Verification.email found in
      let nickname := Verification.nickname found in
      let user := Verification.user found in
      userRepository_save email nickname user ;;
      deleteVerification email Mode_join
  end.

Definition confirm (confirmDto : ConfirmDto.t) : M State StatusResponse :=
  try_catch (confirm_try confirmDto) (fun err => lift (exceptionHandler err)) ;;
  ret SUCCESS_RESPONSE.

Definition checkConfirmCode (confirmDto : ConfirmDto.t) : M State StatusResponse :=
  try_catch
    (verification <-
       gets (fun s => findOne
                        (fun v => String.eqb (Verification.email v) (ConfirmDto.email confirmDto)
                                  && String.eqb (Verification.confirmCode v)
                                       (ConfirmDto.confirmCode confirmDto)
                                  && match ConfirmDto.mode confirmDto with
                                     | Some mode => Mode_eqb (Verification.mode v) mode
                                     | None => true
                                     end)
                        (verifications s)) ;;
     if is_some verification then ret tt else throw UNAUTHORIZED_EXCEPTION)
    (fun err => lift (exceptionHandler err)) ;;
  ret SUCCESS_RESPONSE.

(** [(await userRepository.findOne({ where, select: ['password'] }))?.password] *)
Definition findUserPassword (where_ : UserWhere) : M State (option string) :=
  gets (fun s => option_map User.password (findOne (user_meets where_) (users s))).

(** A string is truthy unless it is empty. *)
Definition truthy (text : string) : bool := negb (String.eqb text "").

(** [login]: it returns from inside the [try] block, and falls off its end,
    with [undefined], when the error boundary returns. *)
Definition login (dto : LoginDto.t) : M State (option User.t) :=
  let email := LoginDto.email dto in
  let plain := LoginDto.password dto in
  try_catch
    (password <- findUserPassword (WhereEmail email) ;;
     match password with
     | Some hash =>
         if truthy hash then
           let isMatch := bcrypt_compare env plain hash in
           if isMatch then findUserByEmail email
           else throw UNAUTHORIZED_EXCEPTION
         else throw UNAUTHORIZED_EXCEPTION
     | None => throw UNAUTHORIZED_EXCEPTION
     end)
    (fun err => lift (exceptionHandler err) ;; ret None).

Definition saveFirebaseTokenOfUser (userId : nat) (firebaseToken : string) : M State unit :=
  try_catch
    (userRepository_update (WhereId userId)
       (fun u => User.mk (User.id u) (User.email u) (User.nickname u) (User.password u)
                   (User.is_admin u) (Some firebaseToken)))
    (fun err => lift (exceptionHandler err)).

Definition updateUserPassword (find : UserWhere) (plainPassword : string) : M State unit :=
  let password := encryptPassword plainPassword in
  userRepository_update find
    (fun u => User.mk (User.id u) (User.email u) (User.nickname u) password
                (User.is_admin u) (User.firebaseToken u)).

Definition changePassword (dto : ChangePasswordDto.t) : M State StatusResponse :=
  let id := ChangePasswordDto.userId dto in
  let plain := ChangePasswordDto.password dto in
  let newPassword := ChangePasswordDto.newPassword dto in
  try_catch
    (password <- findUserPassword (WhereId id) ;;
     match password with
     | Some hash =>
         if truthy hash then
           let isMatch := bcrypt_compare env plain hash in
           if negb isMatch then throw UNAUTHORIZED_EXCEPTION
           else updateUserPassword (WhereId id) newPassword
         else throw (ThrownString "User does not exist.")
     | None => throw (ThrownString "User does not exist.")
     end)
    (fun err => lift (exceptionHandler err)) ;;
  ret SUCCESS_RESPONSE.

(** The [try] block of [changePasswordNotLoggedIn]. *)
Definition changePasswordNotLoggedIn_try (email : string) : M State unit :=
  user <- findUserByEmail email ;;
  if negb (is_some user) then throw (ThrownString "User email does not exist.")
  else
    emailHasVerification <- findVerification email Mode_change_password ;;
    let confirmCode := createConfirmCode in
    match emailHasVerification with
    | Some found =>
        verificationRepository_update (Verification.id found)
          (fun v => Verification.mk (Verification.id v) (Verification.email v)
                      (Verification.nickname v) confirmCode (Verification.mode v)
                      (Verification.user v))
    | None =>
        verificationRepository_save email None confirmCode Mode_change_password None
    end ;;
    sendConfirmEmail email confirmCode.

Definition changePasswordNotLoggedIn (email : string) : M State StatusResponse :=
  try_catch (changePasswordNotLoggedIn_try email) (fun err => lift (exceptionHandler err)) ;;
  ret SUCCESS_RESPONSE.

(** The [try] block of [confirmChangePasswordNotLoggedIn]. *)
Definition confirmChangePasswordNotLoggedIn_try
    (dto : ConfirmChangePasswordNotLoggedInDto.t) : M State unit :=
  let email := ConfirmChangePasswordNotLoggedInDto.email dto in
  let confirmCode := ConfirmChangePasswordNotLoggedInDto.confirmCode dto in
  let password := ConfirmChangePasswordNotLoggedInDto.password dto in
  verification <-
    gets (fun s => findOne (verification_has_code email confirmCode Mode_change_password)
                     (verifications s)) ;;
  if negb (is_some verification) then throw (ThrownString "Verification does not exists.")
  else
    updateUserPassword (WhereEmail email) password ;;
    deleteVerification email Mode_change_password.

Definition confirmChangePasswordNotLoggedIn
    (dto : ConfirmChangePasswordNotLoggedInDto.t) : M State StatusResponse :=
  try_catch (confirmChangePasswordNotLoggedIn_try dto)
    (fun err => lift (exceptionHandler err)) ;;
  ret SUCCESS_RESPONSE.

End Workflow.

(** The calls a client can make, and the store each leaves behind. *)
Inductive Call : Type :=
| Join (dto : JoinDto.t)
| Confirm (dto : ConfirmDto.t)
| CheckConfirmCode (dto : ConfirmDto.t)
| Login (dto : LoginDto.t)
| SaveFirebaseTokenOfUser (userId : nat) (firebaseToken : string)
| ChangePassword (dto : ChangePasswordDto.t)
| ChangePasswordNotLoggedIn (email : string)
| ConfirmChangePasswordNotLoggedIn (dto : ConfirmChangePasswordNotLoggedInDto.t).

Definition perform (h : ErrorBoundary) (env : Env) (c : Call) (s : State) : State :=
  match c with
  | Join dto => snd (join h env dto s)
  | Confirm dto => snd (confirm h dto s)
  | CheckConfirmCode dto => snd (checkConfirmCode h dto s)
  | Login dto => snd (login h env dto s)
  | SaveFirebaseTokenOfUser userId firebaseToken => snd (saveFirebaseTokenOfUser h userId firebaseToken s)
  | ChangePassword dto => snd (changePassword h env dto s)
  | ChangePasswordNotLoggedIn email => snd (changePasswordNotLoggedIn h env email s)
  | ConfirmChangePasswordNotLoggedIn dto => snd (confirmChangePasswordNotLoggedIn h env dto s)
  end.

(** The stores a sequence of calls can lead to from the empty ones, each call
    with the environment it meets. *)
Inductive reachable (h : ErrorBoundary) : State -> Prop :=
| reachable_initial : reachable h initial
| reachable_call : forall s env c, reachable h s -> reachable h (perform h env c s).

End AuthService.

(** ** Vocabulary of the statements *)

(** How a value caught in an operation that answers [SUCCESS_RESPONSE] leaves
    it: handed to the error boundary, after which the operation either
    answers or throws what the boundary threw. *)
Definition through_boundary (h : ErrorBoundary) (err : Thrown) : Completion StatusResponse :=
  match h err with
  | Normal _ => Normal SUCCESS_RESPONSE
  | Throw e => Throw e
  end.

(** How a refused [login] ends: the boundary is handed [UNAUTHORIZED_EXCEPTION]. *)
Definition login_refused (h : ErrorBoundary) : Completion (option User.t) :=
  match h UNAUTHORIZED_EXCEPTION with
  | Normal _ => Normal None
  | Throw e => Throw e
  end.

(** The (email, mode) pair a verification is filed under. *)
Definition pair_of (v : Verification.t) : string * Mode :=
  (Verification.email v, Verification.mode v).

(** At most one live verification per (email, mode) pair. *)
Definition one_per_pair (s : State) : Prop :=
  NoDup (map pair_of (verifications s)).

(** A store of two questions, the first activated on an earlier day. *)
Definition two_questions : QuestionService.Store :=
  [ Question.mk 1 "first" true "2021-08-31"; Question.mk 2 "second" false "" ].

(** An environment to run examples in: the six draws are 1, 2, 3, 4, 5, 6, the
    hash of a plaintext is the plaintext after a tag, the mail is delivered. *)
Definition example_env : Env :=
  {| ADMIN_KEY := Some "admin-secret";
     EMAIL_ADDRESS := Some "service@moodlight.test";
     random_index := fun i => S i;
     bcrypt_genSalt := fun _ => "salt";
     bcrypt_hash := fun plain _ => ("bcrypt:" ++ plain)%string;
     bcrypt_compare := fun plain hash => String.eqb hash ("bcrypt:" ++ plain)%string;
     transporter_delivers := fun _ => true |}.

(** The same, with a mail transport that rejects. *)
Definition example_env_mail_down : Env :=
  {| ADMIN_KEY := ADMIN_KEY example_env;
     EMAIL_ADDRESS := EMAIL_ADDRESS example_env;
     random_index := fun i => 9 - i;
     bcrypt_genSalt := bcrypt_genSalt example_env;
     bcrypt_hash := bcrypt_hash example_env;
     bcrypt_compare := bcrypt_compare example_env;
     transporter_delivers := fun _ => false |}.

(** A user, a pending registration, and a store holding both. *)
Definition alice : User.t :=
  User.mk 1 "a@x.com" "nick1" "bcrypt:pw1" false None.

Definition pending_bob : Verification.t :=
  Verification.mk 1 "b@x.com" (Some "nick2") "123456" Mode_join
    (Some {| pending_password := "bcrypt:pw2"; pending_is_admin := false |}).

Definition example_state : State :=
  {| users := [alice]; verifications := [pending_bob];
     nextUserId := 2; nextVerificationId := 2; outbox := [] |}.

(** A session: bob asks to join and confirms; carol asks to join as nick3, then
    asks again, for the same email, as nick2, which is bob's nickname by
    then. *)
Definition bob_join : JoinDto.t := JoinDto.mk "b@x.com" "pw2" "nick2" None.
Definition bob_confirm : ConfirmDto.t := ConfirmDto.mk "b@x.com" "123456" None.
Definition carol_join : JoinDto.t := JoinDto.mk "c@x.com" "pw3" "nick3" None.
Definition carol_join_again : JoinDto.t := JoinDto.mk "c@x.com" "pw3" "nick2" None.
Definition carol_confirm : ConfirmDto.t := ConfirmDto.mk "c@x.com" "123456" None.

Definition after_bob_join : State :=
  AuthService.perform exceptionHandler_of_spec example_env (AuthService.Join bob_join) initial.

Definition after_bob_confirm : State :=
  AuthService.perform exceptionHandler_of_spec example_env (AuthService.Confirm bob_confirm)
    after_bob_join.

Definition after_carol_join : State :=
  AuthService.perform exceptionHandler_of_spec example_env (AuthService.Join carol_join)
    after_bob_confirm.

Definition after_carol_join_again : State :=
  AuthService.perform exceptionHandler_of_spec example_env (AuthService.Join carol_join_again)
    after_carol_join.

Definition carol_pending : Verification.t :=
  Verification.mk 2 "c@x.com" (Some "nick2") "123456" Mode_join
    (Some {| pending_password := "bcrypt:pw3"; pending_is_admin := false |}).

(** A store no sequence of calls produces: a reset is pending for an email
    that no user has. *)
Definition orphan_reset_state : State :=
  {| users := [];
     verifications := [Verification.mk 1 "d@x.com" None "654321" Mode_change_password None];
     nextUserId := 1; nextVerificationId := 2; outbox := [] |}.

(** What the stores the calls produce all satisfy: verification ids are
    distinct and below the counter; there is one verification per (email,
    mode) pair; a change_password verification is for the email of a user; a
    join verification is for an email no user has, and carries a nickname and
    the pending payload. *)
Definition well_formed (s : State) : Prop :=
  NoDup (map Verification.id (verifications s))
  /\ (forall v, In v (verifications s) -> Verification.id v < nextVerificationId s)
  /\ one_per_pair s
  /\ (forall v, In v (verifications s) -> Verification.mode v = Mode_change_password ->
        exists u, In u (users s) /\ User.email u = Verification.email v)
  /\ (forall v, In v (verifications s) -> Verification.mode v = Mode_join ->
        forall u, In u (users s) -> User.email u <> Verification.email v)
  /\ (forall v, In v (verifications s) -> Verification.mode v = Mode_join ->
        exists nickname pending,
          Verification.nickname v = Some nickname /\ Verification.user v = Some pending).

(** ** Vocabulary of the further properties *)

(** How many questions of a table are activated. *)
Definition activated_count (rows : QuestionService.Store) : nat :=
  List.length (QuestionService.activated_questions rows).

(** A question as the update of [activateQuestionTemplate] leaves it: its id
    and contents kept, its activation and date set. *)
Definition stamped (activated : bool) (date : string) (q : Question.t) : Question.t :=
  Question.mk (Question.id q) (Question.contents q) activated date.

(** The two functions of [activateQuestionTemplate] called one after the
    other, the second only if the first completes. *)
Definition deactivate_then_activate (today : string) : M QuestionService.Store QuestionService.UpdateResult :=
  _ <- QuestionService.activateQuestionTemplate today true ;;
  QuestionService.activateQuestionTemplate today false.

Definition activate_then_deactivate (today : string) : M QuestionService.Store QuestionService.UpdateResult :=
  _ <- QuestionService.activateQuestionTemplate today false ;;
  QuestionService.activateQuestionTemplate today true.

(** Is every character of [text] one of the characters of [alphabet]? *)
Fixpoint drawn_from (alphabet text : string) : bool :=
  match text with
  | EmptyString => true
  | String c rest =>
      match index 0 (String c EmptyString) alphabet with
      | Some _ => drawn_from alphabet rest
      | None => false
      end
  end.

(** The columns of a user that identify the account. *)
Definition user_identity (u : User.t) : nat * string * string * bool :=
  (User.id u, User.email u, User.nickname u, User.is_admin u).

(** The email under which a call may write verifications, if it may write
    any. *)
Definition verification_email_of (c : AuthService.Call) : option string :=
  match c with
  | AuthService.Join dto => Some (JoinDto.email dto)
  | AuthService.Confirm dto => Some (ConfirmDto.email dto)
  | AuthService.ChangePasswordNotLoggedIn email => Some email
  | AuthService.ConfirmChangePasswordNotLoggedIn dto =>
      Some (ConfirmChangePasswordNotLoggedInDto.email dto)
  | _ => None
  end.

(** The row a first [join] files, and the user [confirm] makes of it. *)
Definition joined_row (env : Env) (dto : JoinDto.t) (id : nat) : Verification.t :=
  Verification.mk id (JoinDto.email dto) (Some (JoinDto.nickname dto))
    (AuthService.createConfirmCode env) Mode_join
    (Some {| pending_password := AuthService.encryptPassword env (JoinDto.password dto);
             pending_is_admin := option_string_eqb (JoinDto.adminKey dto) (ADMIN_KEY env) |}).

Definition joined_user (env : Env) (dto : JoinDto.t) (id : nat) : User.t :=
  User.mk id (JoinDto.email dto) (JoinDto.nickname dto)
    (AuthService.encryptPassword env (JoinDto.password dto))
    (option_string_eqb (JoinDto.adminKey dto) (ADMIN_KEY env)) None.

(** A user with a new password hash, as [updateUserPassword] leaves it. *)
Definition with_password (hash : string) (u : User.t) : User.t :=
  User.mk (User.id u) (User.email u) (User.nickname u) hash (User.is_admin u)
    (User.firebaseToken u).

(** Nobody holds the email or the nickname: no user has either, no
    verification has the nickname, none is filed under (email, join). *)
Definition unclaimed (email nickname : string) (s : State) : Prop :=
  (forall u, In u (users s) -> User.email u <> email /\ User.nickname u <> nickname)
  /\ (forall v, In v (verifications s) ->
                Verification.nickname v <> Some nickname /\ pair_of v <> (email, Mode_join)).

(** User ids are distinct and below the counter, and no two users share an
    email or a nickname. *)
Definition users_distinct (s : State) : Prop :=
  NoDup (map User.id (users s))
  /\ (forall u, In u (users s) -> User.id u < nextUserId s)
  /\ NoDup (map User.email (users s))
  /\ NoDup (map User.nickname (users s)).

(** ** QuestionService: the rotation *)

Module QuestionFacts.
Import QuestionService.

Lemma Promise_all_values {S A} (values : list A) (s : S) :
  Promise_all (map AValue values) s = (Normal values, s).
Proof.
  induction values as [|a rest IH]; simpl.
  - reflexivity.
  - unfold bind, ret in *. rewrite IH. reflexivity.
Qed.

(** The cron entry point hands [Promise.all] two functions and calls neither:
    it completes, and the table is the one it found. *)
Lemma updateTodayQuestion_store (today : string) (rows : Store) :
  updateTodayQuestion today rows = (Normal tt, rows).
Proof.
  unfold updateTodayQuestion, setTimeout, bind.
  change [AValue (activateQuestionTemplate today true);
          AValue (activateQuestionTemplate today false)]
    with (map (@AValue Store _) [activateQuestionTemplate today true;
                                  activateQuestionTemplate today false]).
  rewrite Promise_all_values. reflexivity.
Qed.

(** The two functions, when they are called: the one built with [true]
    deactivates the activated question of greatest id. *)
Example deactivation_when_called :
  activateQuestionTemplate "2021-09-01" true two_questions
  = (Normal {| affected := 1 |},
     [ Question.mk 1 "first" false "2021-09-01"; Question.mk 2 "second" false "" ]).
Proof. reflexivity. Qed.

(** The one built with [false] looks up an inactive question with no ordering:
    it takes the first one of the table, not the one of greatest id. *)
Example activation_when_called :
  activateQuestionTemplate "2021-09-01" false
    [ Question.mk 1 "first" false ""; Question.mk 2 "second" false "" ]
  = (Normal {| affected := 1 |},
     [ Question.mk 1 "first" true "2021-09-01"; Question.mk 2 "second" false "" ]).
Proof. reflexivity. Qed.

(** With nothing to find, the update is refused and the table stays. *)
Example activation_with_nothing_inactive :
  activateQuestionTemplate "2021-09-01" false [ Question.mk 1 "first" true "2021-08-31" ]
  = (Throw (QueryFailedError "Empty criteria(s) are not allowed for the update method."),
     [ Question.mk 1 "first" true "2021-08-31" ]).
Proof. reflexivity. Qed.

(** C1. The rotation is to deactivate the activated question and to activate
    the inactive question of highest id, both stamped with today's date. Run
    on a store where question 1 is activated and question 2 is not,
    [updateTodayQuestion] completes and leaves the store as it was: question 1
    is still activated with its old date and question 2 is still inactive. *)
Theorem updateTodayQuestion_rotates_nothing :
  let after := snd (updateTodayQuestion "2021-09-01" two_questions) in
  fst (updateTodayQuestion "2021-09-01" two_questions) = Normal tt
  /\ after = two_questions
  /\ findQuestionById 1 after = Some (Question.mk 1 "first" true "2021-08-31")
  /\ findQuestionById 2 after = Some (Question.mk 2 "second" false "")
  /\ findQuestion "2021-09-01" after = None.
Proof.
  cbv zeta. rewrite updateTodayQuestion_store. simpl. repeat split; reflexivity.
Qed.

(** C2. In every store where question 1 is activated and question 2 is not,
    once [updateTodayQuestion] has completed exactly one of the two is
    activated (not both, not neither), and a store with at most one activated
    question still has at most one. *)
Theorem updateTodayQuestion_one_of_two (today : string) (rows : Store) (q1 q2 : Question.t) :
  findQuestionById 1 rows = Some q1 -> Question.activated q1 = true ->
  findQuestionById 2 rows = Some q2 -> Question.activated q2 = false ->
  let after := snd (updateTodayQuestion today rows) in
  fst (updateTodayQuestion today rows) = Normal tt
  /\ xorb (is_activated 1 after) (is_activated 2 after) = true
  /\ (List.length (activated_questions rows) <= 1 ->
      List.length (activated_questions after) <= 1).
Proof.
  intros H1 A1 H2 A2. cbv zeta. rewrite updateTodayQuestion_store. simpl.
  unfold is_activated. rewrite H1, H2, A1, A2. auto.
Qed.

Lemma updateTodayQuestion_one_of_two_witness :
  xorb (is_activated 1 (snd (updateTodayQuestion "2021-09-01" two_questions)))
       (is_activated 2 (snd (updateTodayQuestion "2021-09-01" two_questions))) = true.
Proof.
  apply (updateTodayQuestion_one_of_two "2021-09-01" two_questions
           (Question.mk 1 "first" true "2021-08-31") (Question.mk 2 "second" false ""));
    reflexivity.
Defined.

End QuestionFacts.

(** ** AuthService: confirm, login, the answer of join *)

Module AuthFacts.
Import AuthService.

Lemma is_some_find {A} (p : A -> bool) (l : list A) :
  is_some (find p l) = existsb p l.
Proof.
  induction l as [|a l IH]; simpl; [reflexivity|].
  destruct (p a); simpl; auto.
Qed.

Lemma Mode_eqb_eq (a b : Mode) : Mode_eqb a b = true <-> a = b.
Proof. destruct a, b; simpl; split; congruence. Qed.

Lemma verification_is_pair (email : string) (mode : Mode) (v : Verification.t) :
  verification_is email mode v = true <-> pair_of v = (email, mode).
Proof.
  unfold verification_is, pair_of. rewrite andb_true_iff, String.eqb_eq, Mode_eqb_eq.
  split; [intros [-> ->]; reflexivity | intros H; inversion H; auto].
Qed.

Ltac monad :=
  unfold try_catch, bind, ret, throw, gets, modify, lift in *.

Ltac open_calls :=
  unfold join, join_try, confirm, confirm_try, login, changePasswordNotLoggedIn,
    changePasswordNotLoggedIn_try, confirmChangePasswordNotLoggedIn,
    confirmChangePasswordNotLoggedIn_try, changePassword, saveFirebaseTokenOfUser,
    checkConfirmCode, checkJoinDataAvailability, updateUserPassword, sendConfirmEmail,
    findVerification, deleteVerification, findUserPassword, findUserByEmail,
    findUserByNickname, verificationRepository_update, verificationRepository_save,
    userRepository_update, userRepository_save in *.

Section Boundary.

Variable h : ErrorBoundary.

(** Whatever the [try] block of an operation does, the operation leaves the
    store the block left, and answers [SUCCESS_RESPONSE] or goes through the
    boundary with what the block threw. *)
Lemma guarded_block (block : M State unit) (s : State) :
  (try_catch block (fun err => lift (h err)) ;; ret SUCCESS_RESPONSE) s
  = (match fst (block s) with
     | Normal _ => Normal SUCCESS_RESPONSE
     | Throw err => through_boundary h err
     end, snd (block s)).
Proof.
  monad. unfold through_boundary. destruct (block s) as [[a|err] s']; simpl.
  - reflexivity.
  - destruct (h err); reflexivity.
Qed.

(** C8. When no verification of mode join carries both the email and the
    code, [confirm] throws 'Verification does not exists.' to the error
    boundary and the store is the one it found: no user is created, no
    verification is touched. *)
Theorem confirm_unmatched (dto : ConfirmDto.t) (s : State) :
  findOne (verification_has_code (ConfirmDto.email dto) (ConfirmDto.confirmCode dto) Mode_join)
    (verifications s) = None ->
  fst (confirm_try dto s) = Throw (ThrownString "Verification does not exists.")
  /\ confirm h dto s = (through_boundary h (ThrownString "Verification does not exists."), s).
Proof.
  intros Hnone.
  assert (Hblock : confirm_try dto s = (Throw (ThrownString "Verification does not exists."), s)).
  { unfold confirm_try. monad. rewrite Hnone. reflexivity. }
  split.
  - rewrite Hblock. reflexivity.
  - unfold confirm. rewrite guarded_block, Hblock. reflexivity.
Qed.

(** C5. Given that bcrypt matches nothing against an empty hash: [login]
    returns a user record exactly when a user has the email and bcrypt
    matches the plaintext against the stored hash, and the record is that
    user's; with no such user, and with a user whose hash does not match, it
    ends the same way, the boundary being handed [UNAUTHORIZED_EXCEPTION];
    the stores are only read. *)
Theorem login_unauthorized_uniformly (env : Env) (dto : LoginDto.t) (s : State) :
  (forall plain, bcrypt_compare env plain "" = false) ->
  let by_email := findOne (fun u => String.eqb (User.email u) (LoginDto.email dto)) (users s) in
  (forall u, fst (login h env dto s) = Normal (Some u)
             <-> by_email = Some u
                 /\ bcrypt_compare env (LoginDto.password dto) (User.password u) = true)
  /\ (by_email = None -> fst (login h env dto s) = login_refused h)
  /\ (forall u, by_email = Some u ->
                bcrypt_compare env (LoginDto.password dto) (User.password u) = false ->
                fst (login h env dto s) = login_refused h)
  /\ snd (login h env dto s) = s.
Proof.
  intros Hempty by_email. subst by_email.
  unfold login, findUserPassword, findUserByEmail, login_refused. monad.
  unfold findOne, user_meets.
  destruct (find (fun u => String.eqb (User.email u) (LoginDto.email dto)) (users s))
    as [found|] eqn:Hfind; simpl.
  - unfold truthy.
    destruct (String.eqb (User.password found) "") eqn:Hhash; simpl.
    + apply String.eqb_eq in Hhash.
      assert (Hno : bcrypt_compare env (LoginDto.password dto) (User.password found) = false)
        by (rewrite Hhash; apply Hempty).
      split; [intro u; split; [intro Hu | intros [Hu Hm]]
             | split; [intro Hn | split; [intros u Hu Hm | ]]];
        try (inversion Hu; subst; congruence);
        destruct (h UNAUTHORIZED_EXCEPTION); simpl in *; congruence.
    + destruct (bcrypt_compare env (LoginDto.password dto) (User.password found)) eqn:Hcmp; simpl.
      * rewrite Hfind.
        split; [intro u; split; [intro Hu | intros [Hu Hm]]
               | split; [intro Hn | split; [intros u Hu Hm | ]]];
          try (inversion Hu; subst; auto; congruence); congruence.
      * split; [intro u; split; [intro Hu | intros [Hu Hm]]
               | split; [intro Hn | split; [intros u Hu Hm | ]]];
          try (inversion Hu; subst; congruence);
          destruct (h UNAUTHORIZED_EXCEPTION); simpl in *; congruence.
  - split; [intro u; split; [intro Hu | intros [Hu Hm]]
           | split; [intro Hn | split; [intros u Hu Hm | ]]];
      try discriminate; destruct (h UNAUTHORIZED_EXCEPTION); simpl in *; congruence.
Qed.

(** *** join: the availability check *)

Lemma join_try_email_taken (env : Env) (dto : JoinDto.t) (s : State) :
  findOne (verification_is (JoinDto.email dto) Mode_join) (verifications s) = None ->
  existsb (fun u => String.eqb (User.email u) (JoinDto.email dto)) (users s) = true ->
  join_try env dto s = (Throw (ThrownString "Email already exists."), s).
Proof.
  intros Hnone Huser. open_calls. monad. rewrite Hnone. unfold findOne.
  rewrite <- is_some_find in Huser. rewrite Huser.
  rewrite orb_true_r. reflexivity.
Qed.

Lemma join_try_nickname_taken (env : Env) (dto : JoinDto.t) (s : State) :
  findOne (verification_is (JoinDto.email dto) Mode_join) (verifications s) = None ->
  existsb (fun u => String.eqb (User.email u) (JoinDto.email dto)) (users s) = false ->
  existsb (fun u => String.eqb (User.nickname u) (JoinDto.nickname dto)) (users s)
  || existsb (fun v => option_string_eqb (Verification.nickname v) (Some (JoinDto.nickname dto)))
       (verifications s) = true ->
  join_try env dto s = (Throw (ThrownString "Nickname already exists."), s).
Proof.
  intros Hnone Huser Hnick. open_calls. monad. rewrite Hnone. unfold findOne.
  rewrite <- !is_some_find in *. rewrite Huser.
  rewrite orb_false_r. rewrite orb_comm in Hnick. rewrite orb_comm. rewrite Hnick.
  reflexivity.
Qed.

Lemma join_try_available (env : Env) (dto : JoinDto.t) (s : State) :
  findOne (verification_is (JoinDto.email dto) Mode_join) (verifications s) = None ->
  existsb (fun u => String.eqb (User.email u) (JoinDto.email dto)) (users s) = false ->
  existsb (fun u => String.eqb (User.nickname u) (JoinDto.nickname dto)) (users s) = false ->
  existsb (fun v => option_string_eqb (Verification.nickname v) (Some (JoinDto.nickname dto)))
    (verifications s) = false ->
  users (snd (join_try env dto s)) = users s
  /\ verifications (snd (join_try env dto s))
     = verifications s
       ++ [Verification.mk (nextVerificationId s) (JoinDto.email dto)
             (Some (JoinDto.nickname dto)) (createConfirmCode env) Mode_join
             (Some {| pending_password := encryptPassword env (JoinDto.password dto);
                      pending_is_admin := option_string_eqb (JoinDto.adminKey dto) (ADMIN_KEY env) |})]
  /\ nextVerificationId (snd (join_try env dto s)) = S (nextVerificationId s).
Proof.
  intros Hnone Huser Hnick Hver. open_calls. monad. rewrite Hnone. unfold findOne.
  rewrite <- !is_some_find in *. rewrite Huser, Hnick, Hver. simpl.
  destruct (transporter_delivers env _); simpl; auto.
Qed.

(** *** join: the overwrite branch *)

Lemma find_overwritten (email : string) (nickname : option string) (code : string)
    (user : option PendingUser) (rows : list Verification.t) (found : Verification.t) :
  find (verification_is email Mode_join) rows = Some found ->
  find (verification_is email Mode_join)
    (update (fun v => Verification.id v =? Verification.id found)
       (fun v => Verification.mk (Verification.id v) email nickname code
                   (Verification.mode v) user) rows)
  = Some (Verification.mk (Verification.id found) email nickname code Mode_join user).
Proof.
  induction rows as [|r rest IH]; simpl; [discriminate|].
  destruct (verification_is email Mode_join r) eqn:Hr.
  - intros Heq. inversion Heq; subst r. rewrite Nat.eqb_refl.
    apply verification_is_pair in Hr. unfold pair_of in Hr. inversion Hr as [[He Hm]].
    unfold verification_is at 1. simpl. rewrite String.eqb_refl, Hm. reflexivity.
  - intros Hrest. specialize (IH Hrest).
    destruct (Verification.id r =? Verification.id found) eqn:Hid.
    + unfold verification_is at 1. simpl. rewrite String.eqb_refl. simpl.
      destruct (Mode_eqb (Verification.mode r) Mode_join) eqn:Hmode.
      * apply Mode_eqb_eq in Hmode. apply Nat.eqb_eq in Hid.
        rewrite Hid, Hmode. reflexivity.
      * exact IH.
    + rewrite Hr. exact IH.
Qed.

Lemma update_length {Row} (where_ : Row -> bool) (set : Row -> Row) (rows : list Row) :
  List.length (update where_ set rows) = List.length rows.
Proof. unfold update. apply length_map. Qed.

Lemma update_keeps {Row B} (f : Row -> B) (where_ : Row -> bool) (set : Row -> Row)
    (rows : list Row) :
  (forall r, f (set r) = f r) -> map f (update where_ set rows) = map f rows.
Proof.
  intros Hset. unfold update. rewrite map_map. apply map_ext.
  intros r. destruct (where_ r); auto.
Qed.

(** With a verification on file for (email, join), the [try] block of [join]
    goes to the update, asks nothing about availability, and can only fail at
    the mail. *)
Lemma join_try_overwrite (env : Env) (dto : JoinDto.t) (s : State) (found : Verification.t) :
  findOne (verification_is (JoinDto.email dto) Mode_join) (verifications s) = Some found ->
  users (snd (join_try env dto s)) = users s
  /\ verifications (snd (join_try env dto s))
     = update (fun v => Verification.id v =? Verification.id found)
         (fun v => Verification.mk (Verification.id v) (JoinDto.email dto)
                     (Some (JoinDto.nickname dto)) (createConfirmCode env) (Verification.mode v)
                     (Some {| pending_password := encryptPassword env (JoinDto.password dto);
                              pending_is_admin :=
                                option_string_eqb (JoinDto.adminKey dto) (ADMIN_KEY env) |}))
         (verifications s)
  /\ nextVerificationId (snd (join_try env dto s)) = nextVerificationId s
  /\ fst (join_try env dto s)
     = if transporter_delivers env (confirm_mail env (JoinDto.email dto) (createConfirmCode env))
       then Normal tt else Throw MailError.
Proof.
  intros Hfound. open_calls. monad. rewrite Hfound. simpl.
  destruct (transporter_delivers env _); simpl; auto.
Qed.

Lemma join_store (env : Env) (dto : JoinDto.t) (s : State) :
  snd (join h env dto s) = snd (join_try env dto s).
Proof. unfold join. rewrite guarded_block. reflexivity. Qed.

(** C10. With a verification on file for (email, join), a further [join] for
    that email takes the overwrite branch whatever nickname, password and
    admin key it brings: the row keeps its id and takes the new nickname, the
    hash of the new password and the new admin flag, and no row or user is
    added. Nothing is asked about availability, also when a user or another
    verification has the nickname: the [try] block completes when the mail
    leaves, [join] then answering [SUCCESS_RESPONSE], and throws nothing but
    the failure of the mail otherwise. *)
Theorem join_overwrite_skips_availability (env : Env) (dto : JoinDto.t) (s : State)
    (found : Verification.t) :
  findOne (verification_is (JoinDto.email dto) Mode_join) (verifications s) = Some found ->
  let after := snd (join h env dto s) in
  let delivered :=
    transporter_delivers env (confirm_mail env (JoinDto.email dto) (createConfirmCode env)) in
  findOne (verification_is (JoinDto.email dto) Mode_join) (verifications after)
  = Some (Verification.mk (Verification.id found) (JoinDto.email dto)
            (Some (JoinDto.nickname dto)) (createConfirmCode env) Mode_join
            (Some {| pending_password := encryptPassword env (JoinDto.password dto);
                     pending_is_admin :=
                       option_string_eqb (JoinDto.adminKey dto) (ADMIN_KEY env) |}))
  /\ List.length (verifications after) = List.length (verifications s)
  /\ users after = users s
  /\ fst (join_try env dto s) = (if delivered then Normal tt else Throw MailError)
  /\ (delivered = true -> fst (join h env dto s) = Normal SUCCESS_RESPONSE).
Proof.
  intros Hfound after delivered. subst after delivered. rewrite join_store.
  destruct (join_try_overwrite env dto s found Hfound) as (Hu & Hv & _ & Hc).
  rewrite Hv. repeat split.
  - apply find_overwritten. exact Hfound.
  - apply update_length.
  - exact Hu.
  - exact Hc.
  - intros Hok. unfold join. rewrite guarded_block, Hc, Hok. reflexivity.
Qed.

(** *** The stores the calls produce are well formed *)

Lemma delete_keeps_distinct {Row Key} (key : Row -> Key) (where_ : Row -> bool)
    (rows : list Row) :
  NoDup (map key rows) -> NoDup (map key (delete where_ rows)).
Proof.
  unfold delete. induction rows as [|row rest IH]; intros Hdistinct.
  - constructor.
  - apply NoDup_cons_iff in Hdistinct as [Hfresh Hrest].
    cbn [filter]. destruct (negb (where_ row)); [|exact (IH Hrest)].
    cbn [map]. apply NoDup_cons; [|exact (IH Hrest)].
    intros Hold. apply Hfresh.
    apply in_map_iff in Hold as (other & Hkey & Hkept).
    apply filter_In in Hkept as [Hother _].
    rewrite <- Hkey. apply in_map. exact Hother.
Qed.

Lemma NoDup_map_same {A B} (f : A -> B) (l : list A) (x y : A) :
  NoDup (map f l) -> In x l -> In y l -> f x = f y -> x = y.
Proof.
  induction l as [|a l IH]; simpl; intros Hnd Hx Hy Hf; [contradiction|].
  inversion Hnd as [|b bs Hnotin Hrest]; subst.
  destruct Hx as [-> | Hx], Hy as [-> | Hy]; auto.
  - exfalso. apply Hnotin. rewrite Hf. apply in_map. exact Hy.
  - exfalso. apply Hnotin. rewrite <- Hf. apply in_map. exact Hx.
Qed.

Lemma NoDup_map_snoc {A B} (f : A -> B) (l : list A) (x : A) :
  NoDup (map f l) -> ~ In (f x) (map f l) -> NoDup (map f (l ++ [x])).
Proof.
  intros Hnd Hnotin. rewrite map_app. simpl. apply NoDup_app.
  - exact Hnd.
  - constructor; [simpl; tauto | constructor].
  - intros b Hb [Heq | []]. subst b. contradiction.
Qed.

Lemma in_update {Row} (where_ : Row -> bool) (set : Row -> Row) (rows : list Row) (v : Row) :
  In v (update where_ set rows) ->
  exists r, In r rows /\ ((where_ r = true /\ v = set r) \/ (where_ r = false /\ v = r)).
Proof.
  unfold update. intros Hin. apply in_map_iff in Hin as (r & Hr & Hin).
  exists r. split; [exact Hin|]. destruct (where_ r); auto.
Qed.

Lemma user_email_after_update (where_ : User.t -> bool) (set : User.t -> User.t)
    (rows : list User.t) (email : string) :
  (forall u, User.email (set u) = User.email u) ->
  ((exists u, In u (update where_ set rows) /\ User.email u = email)
   <-> (exists u, In u rows /\ User.email u = email)).
Proof.
  intros Hset. split.
  - intros (u & Hin & He). apply in_update in Hin as (r & Hr & [[_ ->] | [_ ->]]).
    + exists r. rewrite Hset in He. auto.
    + exists r. auto.
  - intros (u & Hin & He). exists (if where_ u then set u else u). split.
    + unfold update. apply in_map_iff. exists u. auto.
    + destruct (where_ u); [rewrite Hset|]; exact He.
Qed.

(** A change to columns of users other than the email. *)
Lemma well_formed_users_update (s s' : State) (where_ : User.t -> bool) (set : User.t -> User.t) :
  (forall u, User.email (set u) = User.email u) ->
  users s' = update where_ set (users s) ->
  verifications s' = verifications s ->
  nextVerificationId s' = nextVerificationId s ->
  well_formed s -> well_formed s'.
Proof.
  intros Hset Hu Hv Hn (W1 & W2 & W3 & W4 & W5 & W6).
  unfold well_formed, one_per_pair. rewrite Hu, Hv, Hn.
  repeat split; auto.
  - intros v Hin Hmode. apply (user_email_after_update where_ set); auto.
  - intros v Hin Hmode u Hu' He.
    destruct (proj1 (user_email_after_update where_ set (users s) (Verification.email v) Hset))
      as (u0 & Hu0 & He0); [exists u; auto|].
    exact (W5 v Hin Hmode u0 Hu0 He0).
Qed.

(** Rows leave the verification table. *)
Lemma well_formed_delete (s s' : State) (where_ : Verification.t -> bool) :
  users s' = users s ->
  verifications s' = delete where_ (verifications s) ->
  nextVerificationId s' = nextVerificationId s ->
  well_formed s -> well_formed s'.
Proof.
  intros Hu Hv Hn (W1 & W2 & W3 & W4 & W5 & W6).
  unfold well_formed, one_per_pair, delete in *. rewrite Hu, Hv, Hn.
  repeat split.
  - apply (delete_keeps_distinct Verification.id). exact W1.
  - intros v Hin. apply filter_In in Hin. apply W2. tauto.
  - apply (delete_keeps_distinct pair_of). exact W3.
  - intros v Hin. apply filter_In in Hin. apply W4. tauto.
  - intros v Hin. apply filter_In in Hin. apply W5. tauto.
  - intros v Hin. apply filter_In in Hin. apply W6. tauto.
Qed.

(** A user is registered, and the join verifications of that email leave. *)
Lemma well_formed_register (s s' : State) (u : User.t) :
  users s' = users s ++ [u] ->
  verifications s' = delete (verification_is (User.email u) Mode_join) (verifications s) ->
  nextVerificationId s' = nextVerificationId s ->
  well_formed s -> well_formed s'.
Proof.
  intros Hu Hv Hn (W1 & W2 & W3 & W4 & W5 & W6).
  unfold well_formed, one_per_pair, delete in *. rewrite Hu, Hv, Hn.
  repeat split.
  - apply (delete_keeps_distinct Verification.id). exact W1.
  - intros v Hin. apply filter_In in Hin. apply W2. tauto.
  - apply (delete_keeps_distinct pair_of). exact W3.
  - intros v Hin Hmode. apply filter_In in Hin as [Hin _].
    destruct (W4 v Hin Hmode) as (u0 & Hu0 & He0).
    exists u0. split; [apply in_or_app; auto | exact He0].
  - intros v Hin Hmode u0 Hu0 He0. apply filter_In in Hin as [Hin Hkept].
    apply in_app_or in Hu0 as [Hu0 | [<- | []]].
    + exact (W5 v Hin Hmode u0 Hu0 He0).
    + apply negb_true_iff in Hkept.
      assert (Hpair : verification_is (User.email u) Mode_join v = true).
      { apply verification_is_pair. unfold pair_of. rewrite He0, Hmode. reflexivity. }
      congruence.
  - intros v Hin. apply filter_In in Hin. apply W6. tauto.
Qed.

(** A verification is filed under a pair that had none. *)
Lemma well_formed_insert (s s' : State) (v : Verification.t) :
  users s' = users s ->
  verifications s' = verifications s ++ [v] ->
  nextVerificationId s' = S (nextVerificationId s) ->
  Verification.id v = nextVerificationId s ->
  find (verification_is (Verification.email v) (Verification.mode v)) (verifications s) = None ->
  (Verification.mode v = Mode_change_password ->
   exists u, In u (users s) /\ User.email u = Verification.email v) ->
  (Verification.mode v = Mode_join ->
   (forall u, In u (users s) -> User.email u <> Verification.email v)
   /\ exists nickname pending,
        Verification.nickname v = Some nickname /\ Verification.user v = Some pending) ->
  well_formed s -> well_formed s'.
Proof.
  intros Hu Hv Hn Hid Hfree Hcp Hjoin (W1 & W2 & W3 & W4 & W5 & W6).
  unfold well_formed, one_per_pair in *. rewrite Hu, Hv, Hn.
  repeat split.
  - apply NoDup_map_snoc; [exact W1|].
    intros Hin. apply in_map_iff in Hin as (r & Hr & Hin). apply W2 in Hin. lia.
  - intros r Hin. apply in_app_or in Hin as [Hin | [<- | []]]; [apply W2 in Hin|]; lia.
  - apply NoDup_map_snoc; [exact W3|].
    intros Hin. apply in_map_iff in Hin as (r & Hr & Hin).
    apply (find_none _ _ Hfree) in Hin.
    assert (verification_is (Verification.email v) (Verification.mode v) r = true)
      by (apply verification_is_pair; exact Hr).
    congruence.
  - intros r Hin Hmode. apply in_app_or in Hin as [Hin | [<- | []]]; auto.
  - intros r Hin Hmode. apply in_app_or in Hin as [Hin | [<- | []]]; [auto|].
    apply Hjoin. exact Hmode.
  - intros r Hin Hmode. apply in_app_or in Hin as [Hin | [<- | []]]; [auto|].
    apply Hjoin. exact Hmode.
Qed.

(** The verification filed under (email, join) is overwritten. *)
Lemma well_formed_overwrite (s s' : State) (email nickname code : string)
    (pending : PendingUser) (found : Verification.t) :
  users s' = users s ->
  find (verification_is email Mode_join) (verifications s) = Some found ->
  verifications s'
  = update (fun v => Verification.id v =? Verification.id found)
      (fun v => Verification.mk (Verification.id v) email (Some nickname) code
                  (Verification.mode v) (Some pending))
      (verifications s) ->
  nextVerificationId s' = nextVerificationId s ->
  well_formed s -> well_formed s'.
Proof.
  intros Hu Hfound Hv Hn (W1 & W2 & W3 & W4 & W5 & W6).
  apply find_some in Hfound as [Hfin Hfis]. apply verification_is_pair in Hfis.
  unfold pair_of in Hfis. inversion Hfis as [[Hfe Hfm]].
  assert (Hsame : forall r, In r (verifications s) ->
                            (Verification.id r =? Verification.id found) = true -> r = found).
  { intros r Hr Hid. apply Nat.eqb_eq in Hid.
    exact (NoDup_map_same Verification.id _ r found W1 Hr Hfin Hid). }
  unfold well_formed, one_per_pair in *. rewrite Hu, Hv, Hn.
  repeat split.
  - rewrite update_keeps; auto.
  - intros v Hin. apply in_update in Hin as (r & Hr & [[_ ->] | [_ ->]]); simpl; auto.
  - unfold update. rewrite map_map.
    erewrite map_ext_in; [exact W3|].
    intros r Hr. simpl. destruct (Verification.id r =? Verification.id found) eqn:Hid; auto.
    rewrite (Hsame r Hr Hid). unfold pair_of. simpl. rewrite Hfm, Hfe. reflexivity.
  - intros v Hin Hmode. apply in_update in Hin as (r & Hr & [[Hid ->] | [_ ->]]); auto.
    simpl in Hmode. rewrite (Hsame r Hr Hid) in Hmode. congruence.
  - intros v Hin Hmode u Hu'. apply in_update in Hin as (r & Hr & [[Hid ->] | [_ ->]]).
    + simpl. rewrite <- Hfe. apply (W5 found Hfin Hfm u Hu').
    + apply (W5 r Hr Hmode u Hu').
  - intros v Hin Hmode. apply in_update in Hin as (r & Hr & [[Hid ->] | [_ ->]]); auto.
    simpl. eauto.
Qed.

(** Verifications take a new code and keep their other columns. *)
Lemma well_formed_recode (s s' : State) (where_ : Verification.t -> bool) (code : string) :
  users s' = users s ->
  verifications s'
  = update where_
      (fun v => Verification.mk (Verification.id v) (Verification.email v)
                  (Verification.nickname v) code (Verification.mode v) (Verification.user v))
      (verifications s) ->
  nextVerificationId s' = nextVerificationId s ->
  well_formed s -> well_formed s'.
Proof.
  intros Hu Hv Hn (W1 & W2 & W3 & W4 & W5 & W6).
  unfold well_formed, one_per_pair in *. rewrite Hu, Hv, Hn.
  repeat split.
  - rewrite update_keeps; auto.
  - intros v Hin. apply in_update in Hin as (r & Hr & [[_ ->] | [_ ->]]); simpl; auto.
  - rewrite update_keeps; auto.
  - intros v Hin Hmode. apply in_update in Hin as (r & Hr & [[_ ->] | [_ ->]]); simpl; auto.
  - intros v Hin Hmode. apply in_update in Hin as (r & Hr & [[_ ->] | [_ ->]]); simpl; auto.
  - intros v Hin Hmode. apply in_update in Hin as (r & Hr & [[_ ->] | [_ ->]]); simpl; auto.
Qed.

(** Only the mail that left differs. *)
Lemma well_formed_same_tables (s s' : State) :
  users s' = users s ->
  verifications s' = verifications s ->
  nextVerificationId s' = nextVerificationId s ->
  well_formed s -> well_formed s'.
Proof.
  intros Hu Hv Hn W. unfold well_formed, one_per_pair in *. rewrite Hu, Hv, Hn. exact W.
Qed.

Lemma well_formed_initial : well_formed initial.
Proof.
  unfold well_formed, one_per_pair, initial. simpl.
  split; [constructor|]. split; [intros v []|]. split; [constructor|].
  split; [intros v []|]. split; intros v [].
Qed.

Lemma guarded_store (block : M State unit) (s : State) :
  snd ((try_catch block (fun err => lift (h err)) ;; ret SUCCESS_RESPONSE) s) = snd (block s).
Proof. rewrite guarded_block. reflexivity. Qed.

Lemma existsb_false_email (rows : list User.t) (email : string) :
  existsb (fun u => String.eqb (User.email u) email) rows = false ->
  forall u, In u rows -> User.email u <> email.
Proof.
  intros Hnone u Hin He.
  assert (existsb (fun u => String.eqb (User.email u) email) rows = true).
  { apply existsb_exists. exists u. split; [exact Hin | apply String.eqb_eq; exact He]. }
  congruence.
Qed.

Lemma join_try_well_formed (env : Env) (dto : JoinDto.t) (s : State) :
  well_formed s -> well_formed (snd (join_try env dto s)).
Proof.
  intros W.
  destruct (findOne (verification_is (JoinDto.email dto) Mode_join) (verifications s))
    as [found|] eqn:Hfound.
  - destruct (join_try_overwrite env dto s found Hfound) as (Hu & Hv & Hn & _).
    eapply well_formed_overwrite; eauto.
  - destruct (existsb (fun u => String.eqb (User.email u) (JoinDto.email dto)) (users s))
      eqn:Hemail.
    { rewrite join_try_email_taken; auto. }
    destruct (existsb (fun u => String.eqb (User.nickname u) (JoinDto.nickname dto)) (users s))
      eqn:Hnick.
    { rewrite join_try_nickname_taken; auto. rewrite Hnick. reflexivity. }
    destruct (existsb (fun v => option_string_eqb (Verification.nickname v)
                                  (Some (JoinDto.nickname dto))) (verifications s)) eqn:Hver.
    { rewrite join_try_nickname_taken; auto. rewrite Hnick, Hver. reflexivity. }
    destruct (join_try_available env dto s Hfound Hemail Hnick Hver) as (Hu & Hv & Hn).
    eapply well_formed_insert; eauto; simpl.
    + intros Hmode. discriminate.
    + intros _. split; [apply existsb_false_email; exact Hemail | eauto].
Qed.

Lemma confirm_try_well_formed (dto : ConfirmDto.t) (s : State) :
  well_formed s -> well_formed (snd (confirm_try dto s)).
Proof.
  intros W. open_calls. monad.
  destruct (findOne _ (verifications s)) as [found|]; simpl; [|exact W].
  destruct (Verification.nickname found) as [nickname|]; simpl; [|exact W].
  destruct (Verification.user found) as [pending|]; simpl; [|exact W].
  destruct (user_insert_allowed (users s) (Verification.email found) nickname); simpl; [|exact W].
  eapply well_formed_register with (s := s); simpl; eauto.
Qed.

Lemma changePasswordNotLoggedIn_try_well_formed (env : Env) (email : string) (s : State) :
  well_formed s -> well_formed (snd (changePasswordNotLoggedIn_try env email s)).
Proof.
  intros W. open_calls. monad. unfold findOne.
  destruct (find (fun u => String.eqb (User.email u) email) (users s)) as [user|] eqn:Huser;
    simpl; [|exact W].
  apply find_some in Huser as [Huin Hue]. apply String.eqb_eq in Hue.
  destruct (find (verification_is email Mode_change_password) (verifications s))
    as [found|] eqn:Hfound; simpl.
  - destruct (transporter_delivers env _); simpl;
      eapply well_formed_recode with (s := s); simpl; eauto.
  - destruct (transporter_delivers env _); simpl;
      eapply well_formed_insert with (s := s); simpl; eauto; try discriminate.
Qed.

Lemma confirmChangePasswordNotLoggedIn_try_well_formed (env : Env)
    (dto : ConfirmChangePasswordNotLoggedInDto.t) (s : State) :
  well_formed s -> well_formed (snd (confirmChangePasswordNotLoggedIn_try env dto s)).
Proof.
  intros W. open_calls. monad.
  destruct (findOne _ (verifications s)) as [found|]; simpl; [|exact W].
  eapply well_formed_delete
    with (s := with_users (update (user_meets (WhereEmail (ConfirmChangePasswordNotLoggedInDto.email dto)))
                             (fun u => User.mk (User.id u) (User.email u) (User.nickname u)
                                         (encryptPassword env (ConfirmChangePasswordNotLoggedInDto.password dto))
                                         (User.is_admin u) (User.firebaseToken u))) s);
    simpl; eauto.
  eapply well_formed_users_update with (s := s); simpl; eauto; reflexivity.
Qed.

Lemma login_store (env : Env) (dto : LoginDto.t) (s : State) :
  snd (login h env dto s) = s.
Proof.
  open_calls. monad.
  destruct (option_map User.password _) as [hash|]; simpl.
  - destruct (truthy hash); simpl.
    + destruct (bcrypt_compare env _ hash); simpl; [reflexivity|].
      destruct (h UNAUTHORIZED_EXCEPTION); reflexivity.
    + destruct (h UNAUTHORIZED_EXCEPTION); reflexivity.
  - destruct (h UNAUTHORIZED_EXCEPTION); reflexivity.
Qed.

(** Every call keeps the stores well formed. *)
Lemma perform_well_formed (env : Env) (c : Call) (s : State) :
  well_formed s -> well_formed (perform h env c s).
Proof.
  intros W. destruct c; simpl.
  - rewrite join_store. apply join_try_well_formed. exact W.
  - unfold confirm. rewrite guarded_store. apply confirm_try_well_formed. exact W.
  - unfold checkConfirmCode. rewrite guarded_store. monad.
    destruct (is_some _); exact W.
  - rewrite login_store. exact W.
  - open_calls. monad. simpl.
    eapply well_formed_users_update with (s := s); simpl; eauto; reflexivity.
  - unfold changePassword. rewrite guarded_store. open_calls. monad.
    destruct (option_map User.password _) as [hash|]; simpl; [|exact W].
    destruct (truthy hash); simpl; [|exact W].
    destruct (bcrypt_compare env _ hash); simpl; [|exact W].
    eapply well_formed_users_update with (s := s); simpl; eauto; reflexivity.
  - unfold changePasswordNotLoggedIn. rewrite guarded_store.
    apply changePasswordNotLoggedIn_try_well_formed. exact W.
  - unfold confirmChangePasswordNotLoggedIn. rewrite guarded_store.
    apply confirmChangePasswordNotLoggedIn_try_well_formed. exact W.
Qed.

Lemma reachable_well_formed (s : State) : reachable h s -> well_formed s.
Proof.
  induction 1 as [|s env c Hreach IH].
  - apply well_formed_initial.
  - apply perform_well_formed. exact IH.
Qed.

(** *** The claims on join and confirm *)

(** C4. With a verification on file for (email, join), a further [join] for
    that email updates that row where it is: the table has the same ids in
    the same order, so no row is added, and the row found under (email, join)
    has the id it had and the confirm code this call generated. And in every
    store the calls can lead to there is at most one verification per (email,
    mode) pair. *)
Theorem join_again_updates_in_place (env : Env) (dto : JoinDto.t) (s : State)
    (found : Verification.t) :
  findOne (verification_is (JoinDto.email dto) Mode_join) (verifications s) = Some found ->
  let after := snd (join h env dto s) in
  map Verification.id (verifications after) = map Verification.id (verifications s)
  /\ List.length (verifications after) = List.length (verifications s)
  /\ (exists row,
        findOne (verification_is (JoinDto.email dto) Mode_join) (verifications after) = Some row
        /\ Verification.id row = Verification.id found
        /\ Verification.confirmCode row = createConfirmCode env)
  /\ (forall reached, reachable h reached -> one_per_pair reached).
Proof.
  intros Hfound after. subst after. rewrite join_store.
  destruct (join_try_overwrite env dto s found Hfound) as (_ & Hv & _ & _).
  rewrite Hv. split; [|split; [|split]].
  - apply update_keeps. reflexivity.
  - apply update_length.
  - eexists. split; [apply find_overwritten; exact Hfound|]. simpl. auto.
  - intros reached Hreach. apply reachable_well_formed in Hreach.
    destruct Hreach as (_ & _ & W3 & _). exact W3.
Qed.

Lemma option_string_eqb_eq (a b : option string) : option_string_eqb a b = true <-> a = b.
Proof.
  destruct a as [x|], b as [y|]; simpl; try (split; congruence).
  rewrite String.eqb_eq. split; congruence.
Qed.

(** C6. In a store the calls can lead to, with no verification on file for
    (email, join): when a user or a verification has the email, [join] throws
    'Email already exists.' to the error boundary; when a user or a
    verification has the nickname and nobody has the email, it throws
    'Nickname already exists.'; when both the email and the nickname are
    taken, it is the email that is reported. In each case the stores are left
    as they were. *)
Theorem join_rejects_taken (env : Env) (dto : JoinDto.t) (s : State) :
  reachable h s ->
  findOne (verification_is (JoinDto.email dto) Mode_join) (verifications s) = None ->
  let email_taken :=
    (exists u, In u (users s) /\ User.email u = JoinDto.email dto)
    \/ (exists v, In v (verifications s) /\ Verification.email v = JoinDto.email dto) in
  let nickname_taken :=
    (exists u, In u (users s) /\ User.nickname u = JoinDto.nickname dto)
    \/ (exists v, In v (verifications s)
                  /\ Verification.nickname v = Some (JoinDto.nickname dto)) in
  (email_taken ->
   join h env dto s = (through_boundary h (ThrownString "Email already exists."), s))
  /\ (nickname_taken -> ~ email_taken ->
      join h env dto s = (through_boundary h (ThrownString "Nickname already exists."), s))
  /\ (email_taken -> nickname_taken ->
      fst (join_try env dto s) = Throw (ThrownString "Email already exists.")).
Proof.
  intros Hreach Hnone email_taken nickname_taken.
  apply reachable_well_formed in Hreach. destruct Hreach as (_ & _ & _ & W4 & _).
  assert (Hemail : email_taken ->
                   existsb (fun u => String.eqb (User.email u) (JoinDto.email dto)) (users s)
                   = true).
  { intros [(u & Hin & He) | (v & Hin & He)]; apply existsb_exists.
    - exists u. split; [exact Hin | apply String.eqb_eq; exact He].
    - destruct (Verification.mode v) eqn:Hmode.
      + assert (verification_is (JoinDto.email dto) Mode_join v = true)
          by (apply verification_is_pair; unfold pair_of; congruence).
        pose proof (find_none _ _ Hnone v Hin). congruence.
      + destruct (W4 v Hin Hmode) as (u & Hu & Hue).
        exists u. split; [exact Hu | apply String.eqb_eq; congruence]. }
  split; [|split].
  - intros Htaken. unfold join. rewrite guarded_block.
    rewrite join_try_email_taken; auto.
  - intros Hnick Hfree. unfold join. rewrite guarded_block.
    rewrite join_try_nickname_taken; auto.
    + destruct (existsb _ (users s)) eqn:Hex; [|reflexivity].
      exfalso. apply Hfree. left. apply existsb_exists in Hex as (u & Hin & He).
      exists u. split; [exact Hin | apply String.eqb_eq; exact He].
    + apply orb_true_iff. destruct Hnick as [(u & Hin & He) | (v & Hin & He)].
      * left. apply existsb_exists. exists u. split; [exact Hin | apply String.eqb_eq; exact He].
      * right. apply existsb_exists. exists v. split; [exact Hin|].
        apply option_string_eqb_eq. exact He.
  - intros Htaken _. rewrite join_try_email_taken; auto.
Qed.

Lemma find_delete {Row} (where_ : Row -> bool) (rows : list Row) :
  find where_ (delete where_ rows) = None.
Proof.
  unfold delete. induction rows as [|r rest IH]; simpl; [reflexivity|].
  destruct (where_ r) eqn:Hr; simpl; [exact IH|]. rewrite Hr. exact IH.
Qed.

Lemma verification_has_code_spec (email code : string) (mode : Mode) (v : Verification.t) :
  verification_has_code email code mode v = true
  <-> Verification.email v = email /\ Verification.confirmCode v = code
      /\ Verification.mode v = mode.
Proof.
  unfold verification_has_code.
  rewrite !andb_true_iff, !String.eqb_eq, Mode_eqb_eq. tauto.
Qed.

(** In a well-formed store, the lookup by email, code and mode returns the one
    verification filed under the pair, when its code is the one given. *)
Lemma find_by_code (s : State) (found : Verification.t) :
  well_formed s -> In found (verifications s) ->
  findOne (verification_has_code (Verification.email found) (Verification.confirmCode found)
             (Verification.mode found)) (verifications s) = Some found.
Proof.
  intros (_ & _ & W3 & _) Hin. unfold findOne.
  destruct (find _ (verifications s)) as [r|] eqn:Hfind.
  - apply find_some in Hfind as [Hr Hcode]. apply verification_has_code_spec in Hcode.
    f_equal. apply (NoDup_map_same pair_of (verifications s)); auto.
    unfold pair_of. destruct Hcode as (-> & _ & ->). reflexivity.
  - pose proof (find_none _ _ Hfind found Hin) as Hno.
    assert (verification_has_code (Verification.email found) (Verification.confirmCode found)
              (Verification.mode found) found = true)
      by (apply verification_has_code_spec; auto).
    congruence.
Qed.

(** C3, as the code has it. In a store the calls can lead to, holding a join
    verification for the email whose nickname no user has, [confirm] with that
    verification's code answers [SUCCESS_RESPONSE], adds exactly one user,
    built from the verification's email and nickname and the password hash
    and admin flag of its payload, and leaves no verification to be found
    under (email, join). *)
Theorem confirm_registers (dto : ConfirmDto.t) (s : State) (found : Verification.t) :
  reachable h s ->
  In found (verifications s) ->
  Verification.mode found = Mode_join ->
  Verification.email found = ConfirmDto.email dto ->
  Verification.confirmCode found = ConfirmDto.confirmCode dto ->
  (forall u, In u (users s) -> Some (User.nickname u) <> Verification.nickname found) ->
  let after := snd (confirm h dto s) in
  exists nickname pending,
    Verification.nickname found = Some nickname
    /\ Verification.user found = Some pending
    /\ fst (confirm h dto s) = Normal SUCCESS_RESPONSE
    /\ users after
       = users s ++ [User.mk (nextUserId s) (ConfirmDto.email dto) nickname
                       (pending_password pending) (pending_is_admin pending) None]
    /\ findOne (verification_is (ConfirmDto.email dto) Mode_join) (verifications after) = None.
Proof.
  intros Hreach Hin Hmode Hemail Hcode Hnick after. subst after.
  apply reachable_well_formed in Hreach.
  pose proof (find_by_code s found Hreach Hin) as Hfind.
  rewrite Hmode, Hemail, Hcode in Hfind.
  destruct Hreach as (_ & _ & _ & _ & W5 & W6).
  destruct (W6 found Hin Hmode) as (nickname & pending & Hn & Hp).
  assert (Hallowed : user_insert_allowed (users s) (ConfirmDto.email dto) nickname = true).
  { unfold user_insert_allowed. apply negb_true_iff.
    destruct (existsb _ (users s)) eqn:Hex; [|reflexivity].
    exfalso. apply existsb_exists in Hex as (u & Hu & Hor).
    apply orb_true_iff in Hor as [He | He]; apply String.eqb_eq in He.
    - apply (W5 found Hin Hmode u Hu). congruence.
    - apply (Hnick u Hu). congruence. }
  exists nickname, pending. split; [exact Hn|]. split; [exact Hp|].
  unfold confirm. rewrite guarded_block.
  assert (Hblock : confirm_try dto s
                   = (Normal tt,
                      {| users := users s ++ [User.mk (nextUserId s) (ConfirmDto.email dto) nickname
                                                (pending_password pending)
                                                (pending_is_admin pending) None];
                         verifications := delete (verification_is (ConfirmDto.email dto) Mode_join)
                                            (verifications s);
                         nextUserId := S (nextUserId s);
                         nextVerificationId := nextVerificationId s;
                         outbox := outbox s |})).
  { open_calls. monad. rewrite Hfind. rewrite Hn, Hp, Hemail. simpl.
    rewrite Hallowed. reflexivity. }
  rewrite Hblock. simpl. repeat split. apply find_delete.
Qed.

(** *** The password reset *)

Lemma find_exists {A} (p : A -> bool) (l : list A) (x : A) :
  In x l -> p x = true -> exists y, find p l = Some y.
Proof.
  intros Hin Hp. destruct (find p l) as [y|] eqn:Hfind; [eauto|].
  pose proof (find_none _ _ Hfind x Hin). congruence.
Qed.

(** For the email of a user, the [try] block of [changePasswordNotLoggedIn]
    leaves a change_password verification carrying the code it generated,
    whether or not the mail left. *)
Lemma changePasswordNotLoggedIn_try_files (env : Env) (email : string) (s : State) :
  (exists u, In u (users s) /\ User.email u = email) ->
  users (snd (changePasswordNotLoggedIn_try env email s)) = users s
  /\ exists v, In v (verifications (snd (changePasswordNotLoggedIn_try env email s)))
               /\ verification_has_code email (createConfirmCode env) Mode_change_password v = true.
Proof.
  intros (u & Hu & He). open_calls. monad. unfold findOne.
  destruct (find_exists (fun u => String.eqb (User.email u) email) (users s) u Hu) as (u0 & Hu0);
    [apply String.eqb_eq; exact He|].
  rewrite Hu0. simpl.
  destruct (find (verification_is email Mode_change_password) (verifications s))
    as [found|] eqn:Hfound; simpl.
  - apply find_some in Hfound as [Hin His].
    apply verification_is_pair in His. unfold pair_of in His. inversion His as [[Hfe Hfm]].
    assert (Hrow : In (Verification.mk (Verification.id found) (Verification.email found)
                         (Verification.nickname found) (createConfirmCode env)
                         (Verification.mode found) (Verification.user found))
                     (update (fun v => Verification.id v =? Verification.id found)
                        (fun v => Verification.mk (Verification.id v) (Verification.email v)
                                    (Verification.nickname v) (createConfirmCode env)
                                    (Verification.mode v) (Verification.user v))
                        (verifications s))).
    { unfold update. apply in_map_iff. exists found. rewrite Nat.eqb_refl. auto. }
    destruct (transporter_delivers env _); simpl; (split; [reflexivity|]);
      eexists; (split; [exact Hrow|]);
      apply verification_has_code_spec; simpl; rewrite Hfe, Hfm; auto.
  - destruct (transporter_delivers env _); simpl; (split; [reflexivity|]);
      eexists; (split; [apply in_or_app; right; left; reflexivity|]);
      apply verification_has_code_spec; simpl; auto.
Qed.

(** Whatever code it is given, [confirmChangePasswordNotLoggedIn] with a code
    no change_password verification of the email carries throws to the
    boundary and leaves the stores. *)
Lemma confirmChangePasswordNotLoggedIn_unmatched (env : Env)
    (dto : ConfirmChangePasswordNotLoggedInDto.t) (s : State) :
  findOne (verification_has_code (ConfirmChangePasswordNotLoggedInDto.email dto)
             (ConfirmChangePasswordNotLoggedInDto.confirmCode dto) Mode_change_password)
    (verifications s) = None ->
  confirmChangePasswordNotLoggedIn h env dto s
  = (through_boundary h (ThrownString "Verification does not exists."), s).
Proof.
  intros Hnone. unfold confirmChangePasswordNotLoggedIn. rewrite guarded_block.
  unfold confirmChangePasswordNotLoggedIn_try. monad. rewrite Hnone. reflexivity.
Qed.

Lemma confirmChangePasswordNotLoggedIn_matched (env : Env)
    (dto : ConfirmChangePasswordNotLoggedInDto.t) (s : State) (v : Verification.t) :
  findOne (verification_has_code (ConfirmChangePasswordNotLoggedInDto.email dto)
             (ConfirmChangePasswordNotLoggedInDto.confirmCode dto) Mode_change_password)
    (verifications s) = Some v ->
  confirmChangePasswordNotLoggedIn h env dto s
  = (Normal SUCCESS_RESPONSE,
     {| users := update (user_meets (WhereEmail (ConfirmChangePasswordNotLoggedInDto.email dto)))
                   (fun u => User.mk (User.id u) (User.email u) (User.nickname u)
                               (encryptPassword env (ConfirmChangePasswordNotLoggedInDto.password dto))
                               (User.is_admin u) (User.firebaseToken u))
                   (users s);
        verifications := delete (verification_is (ConfirmChangePasswordNotLoggedInDto.email dto)
                                   Mode_change_password) (verifications s);
        nextUserId := nextUserId s;
        nextVerificationId := nextVerificationId s;
        outbox := outbox s |}).
Proof.
  intros Hsome. unfold confirmChangePasswordNotLoggedIn. rewrite guarded_block.
  open_calls. monad. rewrite Hsome. reflexivity.
Qed.

(** C7. For the email of a user: after [changePasswordNotLoggedIn], the call
    of [confirmChangePasswordNotLoggedIn] with the code that was generated
    answers [SUCCESS_RESPONSE], gives every user of that email the hash of
    the new password, others keeping theirs, and leaves no verification under
    (email, change_password). A call with a code that no change_password
    verification of the email carries throws to the boundary and changes
    nothing; in a store the calls can lead to, that is every code other than
    the generated one, and the users keep their password hashes. *)
Theorem password_reset_by_code (env1 env2 : Env) (email newPassword : string) (s : State) :
  (exists u, In u (users s) /\ User.email u = email) ->
  let code := createConfirmCode env1 in
  let requested := snd (changePasswordNotLoggedIn h env1 email s) in
  let dto := fun c => ConfirmChangePasswordNotLoggedInDto.mk email c newPassword in
  let confirmed := confirmChangePasswordNotLoggedIn h env2 (dto code) requested in
  fst confirmed = Normal SUCCESS_RESPONSE
  /\ users (snd confirmed)
     = update (fun u => String.eqb (User.email u) email)
         (fun u => User.mk (User.id u) (User.email u) (User.nickname u)
                     (encryptPassword env2 newPassword) (User.is_admin u) (User.firebaseToken u))
         (users s)
  /\ (forall u, In u (users (snd confirmed)) -> User.email u = email ->
                User.password u = encryptPassword env2 newPassword)
  /\ findOne (verification_is email Mode_change_password) (verifications (snd confirmed)) = None
  /\ (forall wrong,
        findOne (verification_has_code email wrong Mode_change_password)
          (verifications requested) = None ->
        confirmChangePasswordNotLoggedIn h env2 (dto wrong) requested
        = (through_boundary h (ThrownString "Verification does not exists."), requested))
  /\ (reachable h s -> forall wrong, wrong <> code ->
        users (snd (confirmChangePasswordNotLoggedIn h env2 (dto wrong) requested))
        = users requested).
Proof.
  intros Huser code requested dto confirmed.
  assert (Hreq : requested = snd (changePasswordNotLoggedIn_try env1 email s)).
  { subst requested. unfold changePasswordNotLoggedIn. apply guarded_store. }
  destruct (changePasswordNotLoggedIn_try_files env1 email s Huser) as (Husers & v & Hv & Hcode).
  rewrite <- Hreq in Husers, Hv.
  destruct (find_exists _ _ v Hv Hcode) as (v0 & Hv0).
  assert (Hconfirmed := confirmChangePasswordNotLoggedIn_matched env2 (dto code) requested v0 Hv0).
  fold confirmed in Hconfirmed. simpl in Hconfirmed.
  rewrite Hconfirmed. simpl. rewrite Husers.
  split; [reflexivity|]. split; [reflexivity|]. split; [|split; [|split]].
  - intros u Hin He. apply in_update in Hin as (r & Hr & [[_ ->] | [Hno ->]]).
    + reflexivity.
    + apply String.eqb_eq in He. simpl in Hno. congruence.
  - apply find_delete.
  - intros wrong Hnone.
    apply (confirmChangePasswordNotLoggedIn_unmatched env2 (dto wrong) requested Hnone).
  - intros Hreach wrong Hwrong.
    assert (Hwf : well_formed requested).
    { apply reachable_well_formed.
      exact (reachable_call h s env1 (ChangePasswordNotLoggedIn email) Hreach). }
    destruct (findOne (verification_has_code email wrong Mode_change_password)
                (verifications requested)) as [w|] eqn:Hw.
    + exfalso. apply find_some in Hw as [Hwin Hwcode].
      apply verification_has_code_spec in Hwcode as (Hwe & Hwc & Hwm).
      apply verification_has_code_spec in Hcode as (Hve & Hvc & Hvm).
      destruct Hwf as (_ & _ & W3 & _).
      assert (w = v).
      { apply (NoDup_map_same pair_of (verifications requested)); auto.
        unfold pair_of. congruence. }
      apply Hwrong. unfold code. congruence.
    + rewrite (confirmChangePasswordNotLoggedIn_unmatched env2 (dto wrong) requested Hw).
      simpl. exact Husers.
Qed.

End Boundary.
(** *** The answer of join *)

(** C9. With the error boundary the spec describes, [join] answers
    [SUCCESS_RESPONSE] for every input and every store, on the overwrite
    branch and on the insert branch, whether the [try] block completed or
    threw (a taken email or nickname, a mail that did not leave). Whatever
    the boundary, what the block throws goes to the boundary and to nothing
    else, and [join] has no other answer than [SUCCESS_RESPONSE]. *)
Theorem join_always_answers_success (env : Env) (dto : JoinDto.t) (s : State) :
  fst (join exceptionHandler_of_spec env dto s) = Normal SUCCESS_RESPONSE
  /\ (forall h, fst (join h env dto s)
                = match fst (join_try env dto s) with
                  | Normal _ => Normal SUCCESS_RESPONSE
                  | Throw err => through_boundary h err
                  end)
  /\ (forall h answer, fst (join h env dto s) = Normal answer -> answer = SUCCESS_RESPONSE).
Proof.
  split; [|split].
  - unfold join. rewrite guarded_block.
    destruct (fst (join_try env dto s)); reflexivity.
  - intros h. unfold join. rewrite guarded_block. reflexivity.
  - intros h answer. unfold join. rewrite guarded_block. simpl.
    destruct (fst (join_try env dto s)) as [[]|err]; unfold through_boundary.
    + congruence.
    + destruct (h err); congruence.
Qed.

(** A join for bob's email once bob is a user: the block throws, and the
    answer depends on the boundary alone. *)
Example join_refused_two_boundaries :
  fst (join_try example_env (JoinDto.mk "b@x.com" "pw9" "nick9" None) after_bob_confirm)
  = Throw (ThrownString "Email already exists.")
  /\ fst (join exceptionHandler_of_spec example_env (JoinDto.mk "b@x.com" "pw9" "nick9" None)
            after_bob_confirm)
     = Normal SUCCESS_RESPONSE
  /\ fst (join exceptionHandler_throwing example_env (JoinDto.mk "b@x.com" "pw9" "nick9" None)
            after_bob_confirm)
     = Throw (HttpException 409 "Email already exists.").
Proof. vm_compute. auto. Qed.

(** The mail does not leave: the verification is on file all the same. *)
Example join_mail_down :
  join exceptionHandler_of_spec example_env_mail_down bob_join initial
  = (Normal SUCCESS_RESPONSE,
     {| users := [];
        verifications :=
          [Verification.mk 1 "b@x.com" (Some "nick2") "987654" Mode_join
             (Some {| pending_password := "bcrypt:pw2"; pending_is_admin := false |})];
        nextUserId := 1; nextVerificationId := 2; outbox := [] |}).
Proof. vm_compute. reflexivity. Qed.

Lemma append_length (a b : string) :
  String.length (a ++ b)%string = String.length a + String.length b.
Proof. induction a as [|c a IH]; simpl; [reflexivity | rewrite IH; reflexivity]. Qed.

(** When every draw is below ten, the confirm code has six characters. *)
Lemma createConfirmCode_loop_length (env : Env) (turns i : nat) (prefix : string) :
  (forall k, random_index env k < 10) ->
  String.length (createConfirmCode_loop env i turns prefix) = String.length prefix + turns.
Proof.
  intros Hdraw. revert i prefix.
  induction turns as [|turns IH]; intros i prefix; cbn [createConfirmCode_loop]; [lia|].
  rewrite IH. rewrite append_length.
  assert (Hone : String.length (substring (random_index env i) 1 CHARS) = 1).
  { specialize (Hdraw i). unfold CHARS.
    generalize dependent (random_index env i). intros n Hn.
    do 10 (destruct n as [|n]; [reflexivity|]). lia. }
  rewrite Hone. lia.
Qed.

Lemma createConfirmCode_length (env : Env) :
  (forall k, random_index env k < 10) ->
  String.length (createConfirmCode env) = VERIFY_NUMBER_LENGTH.
Proof.
  intros Hdraw. unfold createConfirmCode.
  rewrite createConfirmCode_loop_length; auto.
Qed.

(** *** The session *)

Lemma after_bob_join_reachable : reachable exceptionHandler_of_spec after_bob_join.
Proof. unfold after_bob_join. apply reachable_call. apply reachable_initial. Qed.

Lemma after_bob_confirm_reachable : reachable exceptionHandler_of_spec after_bob_confirm.
Proof. unfold after_bob_confirm. apply reachable_call. apply after_bob_join_reachable. Qed.

Lemma after_carol_join_again_reachable :
  reachable exceptionHandler_of_spec after_carol_join_again.
Proof.
  unfold after_carol_join_again, after_carol_join.
  do 2 apply reachable_call. apply after_bob_confirm_reachable.
Qed.

(** Against C3 as it is stated. After the session carol's join verification
    is on file with code 123456, in a store the calls lead to, and [confirm]
    with that code is refused by the user table, for her nickname is bob's:
    no user is added, and the verification is still found under (email,
    join). *)
Lemma confirm_refused_for_taken_nickname :
  reachable exceptionHandler_of_spec after_carol_join_again
  /\ findOne (verification_has_code "c@x.com" "123456" Mode_join)
       (verifications after_carol_join_again) = Some carol_pending
  /\ fst (confirm_try carol_confirm after_carol_join_again)
     = Throw (QueryFailedError "Duplicate entry")
  /\ users (snd (confirm exceptionHandler_of_spec carol_confirm after_carol_join_again))
     = users after_carol_join_again
  /\ findOne (fun u => String.eqb (User.email u) "c@x.com")
       (users (snd (confirm exceptionHandler_of_spec carol_confirm after_carol_join_again)))
     = None
  /\ findOne (verification_is "c@x.com" Mode_join)
       (verifications (snd (confirm exceptionHandler_of_spec carol_confirm
                              after_carol_join_again)))
     = Some carol_pending.
Proof.
  split; [exact after_carol_join_again_reachable|].
  vm_compute. repeat split; reflexivity.
Qed.

(** In a store that no sequence of calls produces, where a reset is pending
    for an email no user has, a join for that email is accepted. *)
Remark join_accepted_beside_orphan_reset :
  fst (join_try example_env (JoinDto.mk "d@x.com" "pw" "nick4" None) orphan_reset_state)
  = Normal tt
  /\ ~ reachable exceptionHandler_of_spec orphan_reset_state.
Proof.
  split; [vm_compute; reflexivity|].
  intros Hreach. apply reachable_well_formed in Hreach.
  destruct Hreach as (_ & _ & _ & W4 & _).
  destruct (W4 (Verification.mk 1 "d@x.com" None "654321" Mode_change_password None))
    as (u & [] & _); simpl; auto.
Qed.

(** *** The theorems at work on the example stores *)

Lemma confirm_unmatched_witness :
  confirm exceptionHandler_throwing (ConfirmDto.mk "b@x.com" "000000" None) example_state
  = (Throw (HttpException 409 "Verification does not exists."), example_state).
Proof.
  exact (proj2 (confirm_unmatched exceptionHandler_throwing
                  (ConfirmDto.mk "b@x.com" "000000" None) example_state eq_refl)).
Defined.

Lemma login_unauthorized_uniformly_witness :
  fst (login exceptionHandler_throwing example_env (LoginDto.mk "a@x.com" "pw1") example_state)
  = Normal (Some alice)
  /\ fst (login exceptionHandler_throwing example_env (LoginDto.mk "a@x.com" "wrong") example_state)
     = fst (login exceptionHandler_throwing example_env (LoginDto.mk "z@x.com" "pw1") example_state).
Proof.
  assert (Hempty : forall plain, bcrypt_compare example_env plain "" = false)
    by (intros plain; reflexivity).
  split.
  - apply (login_unauthorized_uniformly exceptionHandler_throwing example_env
             (LoginDto.mk "a@x.com" "pw1") example_state Hempty).
    split; reflexivity.
  - destruct (login_unauthorized_uniformly exceptionHandler_throwing example_env
                (LoginDto.mk "a@x.com" "wrong") example_state Hempty) as (_ & _ & Hwrong & _).
    destruct (login_unauthorized_uniformly exceptionHandler_throwing example_env
                (LoginDto.mk "z@x.com" "pw1") example_state Hempty) as (_ & Hunknown & _).
    rewrite (Hwrong alice); [|reflexivity|reflexivity].
    rewrite Hunknown; reflexivity.
Defined.

Lemma join_rejects_taken_witness :
  join exceptionHandler_of_spec example_env (JoinDto.mk "b@x.com" "pw9" "nick9" None)
    after_bob_confirm
  = (through_boundary exceptionHandler_of_spec (ThrownString "Email already exists."),
     after_bob_confirm).
Proof.
  refine (proj1 (join_rejects_taken exceptionHandler_of_spec example_env
                   (JoinDto.mk "b@x.com" "pw9" "nick9" None) after_bob_confirm
                   after_bob_confirm_reachable eq_refl) _).
  left. exists (User.mk 1 "b@x.com" "nick2" "bcrypt:pw2" false None).
  split; [vm_compute; left; reflexivity | reflexivity].
Defined.

Lemma confirm_registers_witness :
  exists nickname pending,
    Verification.nickname pending_bob = Some nickname
    /\ Verification.user pending_bob = Some pending
    /\ fst (confirm exceptionHandler_of_spec bob_confirm after_bob_join) = Normal SUCCESS_RESPONSE
    /\ users (snd (confirm exceptionHandler_of_spec bob_confirm after_bob_join))
       = users after_bob_join
         ++ [User.mk (nextUserId after_bob_join) (ConfirmDto.email bob_confirm) nickname
               (pending_password pending) (pending_is_admin pending) None]
    /\ findOne (verification_is (ConfirmDto.email bob_confirm) Mode_join)
         (verifications (snd (confirm exceptionHandler_of_spec bob_confirm after_bob_join)))
       = None.
Proof.
  apply (confirm_registers exceptionHandler_of_spec bob_confirm after_bob_join pending_bob).
  - exact after_bob_join_reachable.
  - vm_compute. left. reflexivity.
  - reflexivity.
  - reflexivity.
  - reflexivity.
  - intros u Hin. vm_compute in Hin. destruct Hin.
Defined.

Lemma join_again_updates_in_place_witness :
  map Verification.id
    (verifications (snd (join exceptionHandler_of_spec example_env
                           (JoinDto.mk "b@x.com" "pw2" "nick7" None) example_state)))
  = map Verification.id (verifications example_state).
Proof.
  exact (proj1 (join_again_updates_in_place exceptionHandler_of_spec example_env
                  (JoinDto.mk "b@x.com" "pw2" "nick7" None) example_state pending_bob eq_refl)).
Defined.

Lemma join_overwrite_skips_availability_witness :
  findOne (verification_is "b@x.com" Mode_join)
    (verifications (snd (join exceptionHandler_of_spec example_env
                           (JoinDto.mk "b@x.com" "pw7" "nick1" (Some "admin-secret"))
                           example_state)))
  = Some (Verification.mk 1 "b@x.com" (Some "nick1") "123456" Mode_join
            (Some {| pending_password := "bcrypt:pw7"; pending_is_admin := true |})).
Proof.
  exact (proj1 (join_overwrite_skips_availability exceptionHandler_of_spec example_env
                  (JoinDto.mk "b@x.com" "pw7" "nick1" (Some "admin-secret")) example_state
                  pending_bob eq_refl)).
Defined.

Lemma password_reset_by_code_witness :
  users (snd (confirmChangePasswordNotLoggedIn exceptionHandler_of_spec example_env
                (ConfirmChangePasswordNotLoggedInDto.mk "a@x.com" "123456" "new")
                (snd (changePasswordNotLoggedIn exceptionHandler_of_spec example_env
                        "a@x.com" example_state))))
  = [User.mk 1 "a@x.com" "nick1" "bcrypt:new" false None].
Proof.
  refine (proj1 (proj2 (password_reset_by_code exceptionHandler_of_spec example_env example_env
                          "a@x.com" "new" example_state _))).
  exists alice. split; [left; reflexivity | reflexivity].
Defined.

End AuthFacts.

(** ** QuestionService: the two functions of activateQuestionTemplate, when called *)

Module QuestionCalls.
Import QuestionService.

Lemma update_one_row {Row} (key : Row -> nat) (set : Row -> Row) (before rest : list Row)
    (row : Row) :
  NoDup (map key (before ++ row :: rest)) ->
  update (fun r => key r =? key row) set (before ++ row :: rest) = before ++ set row :: rest.
Proof.
  intros Hdistinct. rewrite map_app in Hdistinct. cbn [map] in Hdistinct.
  apply NoDup_remove_2 in Hdistinct.
  assert (Hother : forall l, (forall r, In r l -> In (key r) (map key before ++ map key rest)) ->
                             map (fun r => if key r =? key row then set r else r) l = l).
  { intros l Hl. rewrite <- (map_id l) at 2. apply map_ext_in. intros r Hr.
    destruct (key r =? key row) eqn:Hkey; [|reflexivity].
    apply Nat.eqb_eq in Hkey. exfalso. apply Hdistinct. rewrite <- Hkey. apply Hl. exact Hr. }
  unfold update. rewrite map_app. cbn [map]. rewrite Nat.eqb_refl.
  rewrite !Hother; [reflexivity| |].
  - intros r Hr. apply in_or_app. right. apply in_map. exact Hr.
  - intros r Hr. apply in_or_app. left. apply in_map. exact Hr.
Qed.

Lemma one_row_matches {Row} (key : Row -> nat) (before rest : list Row) (row : Row) :
  NoDup (map key (before ++ row :: rest)) ->
  filter (fun r => key r =? key row) (before ++ row :: rest) = [row].
Proof.
  intros Hdistinct. rewrite map_app in Hdistinct. cbn [map] in Hdistinct.
  apply NoDup_remove_2 in Hdistinct.
  assert (Hnone : forall l, (forall r, In r l -> In (key r) (map key before ++ map key rest)) ->
                            filter (fun r => key r =? key row) l = []).
  { induction l as [|r l IH]; intros Hl; [reflexivity|]. cbn [filter].
    destruct (key r =? key row) eqn:Hkey.
    - apply Nat.eqb_eq in Hkey. exfalso. apply Hdistinct. rewrite <- Hkey.
      apply Hl. left. reflexivity.
    - apply IH. intros x Hx. apply Hl. right. exact Hx. }
  rewrite filter_app. cbn [filter]. rewrite Nat.eqb_refl.
  rewrite !Hnone; [reflexivity| |].
  - intros r Hr. apply in_or_app. right. apply in_map. exact Hr.
  - intros r Hr. apply in_or_app. left. apply in_map. exact Hr.
Qed.

Lemma find_first {Row} (test : Row -> bool) (before rest : list Row) (row : Row) :
  (forall r, In r before -> test r = false) -> test row = true ->
  find test (before ++ row :: rest) = Some row.
Proof.
  intros Hbefore Hrow. induction before as [|r before IH]; cbn [app find].
  - rewrite Hrow. reflexivity.
  - rewrite (Hbefore r (or_introl eq_refl)). apply IH.
    intros x Hx. apply Hbefore. right. exact Hx.
Qed.

Lemma find_nowhere {Row} (test : Row -> bool) (rows : list Row) :
  (forall r, In r rows -> test r = false) -> find test rows = None.
Proof.
  induction rows as [|r rows IH]; intros Hall; cbn [find]; [reflexivity|].
  rewrite (Hall r (or_introl eq_refl)). apply IH. intros x Hx. apply Hall. right. exact Hx.
Qed.

(** [order: { id: 'DESC' }] hands out a row of the list whose id no other
    row's exceeds, and hands out nothing only for the empty list. *)
Lemma greatest_id_greatest (rows : list Question.t) :
  match greatest_id rows with
  | Some top => In top rows /\ forall q, In q rows -> Question.id q <= Question.id top
  | None => rows = []
  end.
Proof.
  induction rows as [|q rest IH]; cbn [greatest_id]; [reflexivity|].
  destruct (greatest_id rest) as [top|].
  - destruct IH as [Hin Hmax].
    destruct (Question.id top <? Question.id q) eqn:Hlt.
    + apply Nat.ltb_lt in Hlt. split; [left; reflexivity|].
      intros x [<- | Hx]; [lia|]. specialize (Hmax x Hx). lia.
    + apply Nat.ltb_ge in Hlt. split; [right; exact Hin|].
      intros x [<- | Hx]; [lia|]. exact (Hmax x Hx).
  - subst rest. split; [left; reflexivity|]. intros x [<- | []]. lia.
Qed.

Lemma filter_activated_eqb (rows : Store) :
  filter (fun q => Bool.eqb (Question.activated q) true) rows = activated_questions rows.
Proof.
  unfold activated_questions. apply filter_ext. intros q.
  destruct (Question.activated q); reflexivity.
Qed.

Lemma stamped_ids (activated : bool) (date : string) (before rest : list Question.t)
    (q : Question.t) :
  map Question.id (before ++ stamped activated date q :: rest)
  = map Question.id (before ++ q :: rest).
Proof. rewrite !map_app. reflexivity. Qed.

Lemma stamped_count (activated : bool) (date : string) (before rest : list Question.t)
    (q : Question.t) :
  activated_count (before ++ stamped activated date q :: rest) + (if Question.activated q then 1 else 0)
  = activated_count (before ++ q :: rest) + (if activated then 1 else 0).
Proof.
  unfold activated_count, activated_questions. rewrite !filter_app, !length_app.
  cbn [filter stamped Question.activated].
  destruct activated, (Question.activated q); cbn [List.length]; lia.
Qed.

(** What the function built with [false] does to a table of distinct ids. *)
Lemma activation_effect (today : string) (rows : Store) :
  NoDup (map Question.id rows) ->
  match find (fun q => Bool.eqb (Question.activated q) false) rows with
  | None =>
      activateQuestionTemplate today false rows
      = (Throw (QueryFailedError "Empty criteria(s) are not allowed for the update method."), rows)
  | Some q =>
      exists before rest,
        rows = before ++ q :: rest /\ Question.activated q = false
        /\ activateQuestionTemplate today false rows
           = (Normal {| affected := 1 |}, before ++ stamped true today q :: rest)
  end.
Proof.
  intros Hdistinct.
  unfold activateQuestionTemplate, bind, gets, find_id, findOne.
  destruct (find _ rows) as [q|] eqn:Hfind; cbn [option_map questionRepository_update].
  - pose proof (find_some _ _ Hfind) as [Hin Hq].
    destruct (in_split _ _ Hin) as (before & rest & Hrows).
    exists before, rest. split; [exact Hrows|].
    split; [destruct (Question.activated q); [discriminate | reflexivity]|].
    rewrite Hrows in Hdistinct |- *.
    rewrite (one_row_matches Question.id before rest q Hdistinct).
    rewrite (update_one_row Question.id _ before rest q Hdistinct).
    reflexivity.
  - reflexivity.
Qed.

(** What the function built with [true] does to a table of distinct ids. *)
Lemma deactivation_effect (today : string) (rows : Store) :
  NoDup (map Question.id rows) ->
  match greatest_id (activated_questions rows) with
  | None =>
      activated_count rows = 0
      /\ activateQuestionTemplate today true rows
         = (Throw (QueryFailedError "Empty criteria(s) are not allowed for the update method."), rows)
  | Some q =>
      exists before rest,
        rows = before ++ q :: rest /\ Question.activated q = true
        /\ (forall x, In x rows -> Question.activated x = true -> Question.id x <= Question.id q)
        /\ activateQuestionTemplate today true rows
           = (Normal {| affected := 1 |}, before ++ stamped false today q :: rest)
  end.
Proof.
  intros Hdistinct.
  unfold activateQuestionTemplate, bind, gets, find_id. rewrite filter_activated_eqb.
  pose proof (greatest_id_greatest (activated_questions rows)) as Htop.
  destruct (greatest_id (activated_questions rows)) as [q|];
    cbn [option_map questionRepository_update].
  - destruct Htop as [Hin Hmax]. unfold activated_questions in Hin, Hmax.
    apply filter_In in Hin as [Hin Hq].
    destruct (in_split _ _ Hin) as (before & rest & Hrows).
    exists before, rest. split; [exact Hrows|]. split; [exact Hq|]. split.
    + intros x Hx Hact. apply Hmax. apply filter_In. auto.
    + rewrite Hrows in Hdistinct |- *.
      rewrite (one_row_matches Question.id before rest q Hdistinct).
      rewrite (update_one_row Question.id _ before rest q Hdistinct).
      reflexivity.
  - unfold activated_count. rewrite Htop. split; reflexivity.
Qed.

(** X1. Called on a table holding no question of the activation it looks for
    (no activated question for the function built with [true], no inactive
    one for the function built with [false], the empty table for both), the
    function finds no id, its update is refused, and the table stays as it
    was. *)
Theorem nothing_to_switch (today : string) (activated : bool) (rows : Store) :
  (forall q, In q rows -> Question.activated q = negb activated) ->
  activateQuestionTemplate today activated rows
  = (Throw (QueryFailedError "Empty criteria(s) are not allowed for the update method."), rows).
Proof.
  intros Hnone.
  assert (Hfind : find (fun q => Bool.eqb (Question.activated q) activated) rows = None).
  { apply find_nowhere. intros q Hq. rewrite (Hnone q Hq). destruct activated; reflexivity. }
  assert (Hfilter : filter (fun q => Bool.eqb (Question.activated q) activated) rows = []).
  { clear Hfind. induction rows as [|q rows IH]; [reflexivity|]. cbn [filter].
    rewrite (Hnone q (or_introl eq_refl)).
    replace (Bool.eqb (negb activated) activated) with false by (destruct activated; reflexivity).
    apply IH. intros x Hx. apply Hnone. right. exact Hx. }
  unfold activateQuestionTemplate, bind, gets, find_id, findOne.
  rewrite Hfind, Hfilter. destruct activated; reflexivity.
Qed.

Lemma nothing_to_switch_witness :
  activateQuestionTemplate "2021-09-01" false [Question.mk 1 "first" true "2021-08-31"]
  = (Throw (QueryFailedError "Empty criteria(s) are not allowed for the update method."),
     [Question.mk 1 "first" true "2021-08-31"]).
Proof.
  apply (nothing_to_switch "2021-09-01" false [Question.mk 1 "first" true "2021-08-31"]).
  intros q [<- | []]. reflexivity.
Defined.

Lemma activation_at (today : string) (before rest : list Question.t) (q : Question.t) :
  NoDup (map Question.id (before ++ q :: rest)) ->
  (forall x, In x before -> Question.activated x = true) ->
  Question.activated q = false ->
  activateQuestionTemplate today false (before ++ q :: rest)
  = (Normal {| affected := 1 |}, before ++ stamped true today q :: rest).
Proof.
  intros Hdistinct Hbefore Hq.
  unfold activateQuestionTemplate, bind, gets, find_id, findOne.
  rewrite (find_first _ before rest q).
  - cbn [option_map questionRepository_update].
    rewrite (one_row_matches Question.id before rest q Hdistinct).
    rewrite (update_one_row Question.id _ before rest q Hdistinct).
    reflexivity.
  - intros x Hx. rewrite (Hbefore x Hx). reflexivity.
  - rewrite Hq. reflexivity.
Qed.

Lemma deactivation_at (today : string) (before rest : list Question.t) (q : Question.t) :
  NoDup (map Question.id (before ++ q :: rest)) ->
  Question.activated q = true ->
  (forall x, In x (before ++ q :: rest) -> Question.activated x = true ->
             Question.id x <= Question.id q) ->
  activateQuestionTemplate today true (before ++ q :: rest)
  = (Normal {| affected := 1 |}, before ++ stamped false today q :: rest).
Proof.
  intros Hdistinct Hq Hmax.
  unfold activateQuestionTemplate, bind, gets, find_id. rewrite filter_activated_eqb.
  pose proof (greatest_id_greatest (activated_questions (before ++ q :: rest))) as Htop.
  assert (Hq_in : In q (activated_questions (before ++ q :: rest))).
  { unfold activated_questions. apply filter_In. split; [|exact Hq].
    apply in_or_app. right. left. reflexivity. }
  destruct (greatest_id (activated_questions (before ++ q :: rest))) as [top|].
  - destruct Htop as [Hin Hle]. unfold activated_questions in Hin.
    apply filter_In in Hin as [Hin Hact].
    assert (Hid : Question.id top = Question.id q).
    { specialize (Hle q Hq_in). specialize (Hmax top Hin Hact). lia. }
    cbn [option_map questionRepository_update]. rewrite Hid.
    rewrite (one_row_matches Question.id before rest q Hdistinct).
    rewrite (update_one_row Question.id _ before rest q Hdistinct).
    reflexivity.
  - rewrite Htop in Hq_in. destruct Hq_in.
Qed.

(** X2. Called on a table of distinct ids, the function built with [false]
    activates the first inactive question in table order, whatever its id,
    stamps it with today's date and leaves every other row as it was: one
    more question is activated, and [findQuestion] for today's date then
    finds an activated question of that date. *)
Theorem activation_takes_first_inactive (today : string) (before rest : list Question.t)
    (q : Question.t) :
  NoDup (map Question.id (before ++ q :: rest)) ->
  (forall x, In x before -> Question.activated x = true) ->
  Question.activated q = false ->
  let after := before ++ stamped true today q :: rest in
  activateQuestionTemplate today false (before ++ q :: rest) = (Normal {| affected := 1 |}, after)
  /\ activated_count after = S (activated_count (before ++ q :: rest))
  /\ exists found,
       findQuestion today after = Some found
       /\ Question.activated found = true /\ Question.activated_date found = today.
Proof.
  intros Hdistinct Hbefore Hq after. subst after. split; [|split].
  - apply activation_at; assumption.
  - pose proof (stamped_count true today before rest q) as Hcount.
    rewrite Hq in Hcount. lia.
  - unfold findQuestion, findOne.
    destruct (find _ (before ++ stamped true today q :: rest)) as [found|] eqn:Hfind.
    + exists found. split; [reflexivity|].
      apply find_some in Hfind as [_ Hfound].
      apply andb_true_iff in Hfound as [Hdate Hact].
      apply String.eqb_eq in Hdate. destruct (Question.activated found); [auto | discriminate].
    + exfalso.
      pose proof (find_none _ _ Hfind (stamped true today q)) as Hno.
      cbn [stamped Question.activated_date Question.activated] in Hno.
      rewrite String.eqb_refl in Hno. cbn in Hno.
      assert (Hyes : false = true -> False) by discriminate.
      apply Hyes. symmetry. apply Hno. apply in_or_app. right. left. reflexivity.
Qed.

Lemma activation_takes_first_inactive_witness :
  activateQuestionTemplate "2021-09-01" false
    ([Question.mk 7 "seventh" true "2021-08-31"]
     ++ Question.mk 9 "ninth" false "" :: [Question.mk 8 "eighth" false ""])
  = (Normal {| affected := 1 |},
     [Question.mk 7 "seventh" true "2021-08-31"]
     ++ stamped true "2021-09-01" (Question.mk 9 "ninth" false "")
        :: [Question.mk 8 "eighth" false ""]).
Proof.
  refine (proj1 (activation_takes_first_inactive "2021-09-01"
                   [Question.mk 7 "seventh" true "2021-08-31"] [Question.mk 8 "eighth" false ""]
                   (Question.mk 9 "ninth" false "") _ _ eq_refl)).
  - simpl. repeat constructor; simpl; intuition discriminate.
  - intros x [<- | []]. reflexivity.
Defined.

(** X3. Called on a table of distinct ids, the function built with [true]
    deactivates the activated question of greatest id, stamps it with today's
    date and leaves every other row, activated or not, as it was: one
    question less is activated. *)
Theorem deactivation_takes_greatest_id (today : string) (before rest : list Question.t)
    (q : Question.t) :
  NoDup (map Question.id (before ++ q :: rest)) ->
  Question.activated q = true ->
  (forall x, In x (before ++ q :: rest) -> Question.activated x = true ->
             Question.id x <= Question.id q) ->
  let after := before ++ stamped false today q :: rest in
  activateQuestionTemplate today true (before ++ q :: rest) = (Normal {| affected := 1 |}, after)
  /\ S (activated_count after) = activated_count (before ++ q :: rest).
Proof.
  intros Hdistinct Hq Hmax after. subst after. split.
  - apply deactivation_at; assumption.
  - pose proof (stamped_count false today before rest q) as Hcount.
    rewrite Hq in Hcount. lia.
Qed.

Lemma deactivation_takes_greatest_id_witness :
  activateQuestionTemplate "2021-09-01" true
    ([Question.mk 3 "third" true "2021-08-30"]
     ++ Question.mk 5 "fifth" true "2021-08-31" :: [Question.mk 4 "fourth" false ""])
  = (Normal {| affected := 1 |},
     [Question.mk 3 "third" true "2021-08-30"]
     ++ stamped false "2021-09-01" (Question.mk 5 "fifth" true "2021-08-31")
        :: [Question.mk 4 "fourth" false ""]).
Proof.
  refine (proj1 (deactivation_takes_greatest_id "2021-09-01"
                   [Question.mk 3 "third" true "2021-08-30"] [Question.mk 4 "fourth" false ""]
                   (Question.mk 5 "fifth" true "2021-08-31") _ eq_refl _)).
  - simpl. repeat constructor; simpl; intuition discriminate.
  - intros x [<- | [<- | [<- | []]]]; simpl; intros; lia.
Defined.

(** X4. Called one after the other, in either order, on a table of distinct
    ids with exactly one activated question, the two functions leave exactly
    one question activated: deactivating first always completes; activating
    first is refused, and changes nothing, when no question is inactive. *)
Theorem in_sequence_one_stays_activated (today : string) (rows : Store) :
  NoDup (map Question.id rows) ->
  activated_count rows = 1 ->
  (exists after, deactivate_then_activate today rows = (Normal {| affected := 1 |}, after)
                 /\ activated_count after = 1)
  /\ activated_count (snd (activate_then_deactivate today rows)) = 1.
Proof.
  intros Hdistinct Hone. split.
  - unfold deactivate_then_activate, bind.
    pose proof (deactivation_effect today rows Hdistinct) as Hfirst.
    destruct (greatest_id (activated_questions rows)) as [q|].
    + destruct Hfirst as (before & rest & Hrows & Hq & _ & Hrun). rewrite Hrun.
      assert (Hzero : activated_count (before ++ stamped false today q :: rest) = 0).
      { pose proof (stamped_count false today before rest q) as Hcount.
        rewrite Hq, <- Hrows, Hone in Hcount. lia. }
      assert (Hids : NoDup (map Question.id (before ++ stamped false today q :: rest)))
        by (rewrite stamped_ids, <- Hrows; exact Hdistinct).
      pose proof (activation_effect today _ Hids) as Hsecond.
      destruct (find _ (before ++ stamped false today q :: rest)) as [p|] eqn:Hfind.
      * destruct Hsecond as (before' & rest' & Hrows' & Hp & Hrun'). rewrite Hrun'.
        eexists. split; [reflexivity|].
        pose proof (stamped_count true today before' rest' p) as Hcount.
        rewrite Hp, <- Hrows', Hzero in Hcount. lia.
      * exfalso. pose proof (find_none _ _ Hfind (stamped false today q)) as Hno.
        cbn in Hno. assert (Hyes : true = false -> False) by discriminate.
        apply Hyes. apply Hno. apply in_or_app. right. left. reflexivity.
    + destruct Hfirst as [Hzero _]. lia.
  - unfold activate_then_deactivate, bind.
    pose proof (activation_effect today rows Hdistinct) as Hfirst.
    destruct (find _ rows) as [p|].
    + destruct Hfirst as (before & rest & Hrows & Hp & Hrun). rewrite Hrun.
      assert (Htwo : activated_count (before ++ stamped true today p :: rest) = 2).
      { pose proof (stamped_count true today before rest p) as Hcount.
        rewrite Hp, <- Hrows, Hone in Hcount. lia. }
      assert (Hids : NoDup (map Question.id (before ++ stamped true today p :: rest)))
        by (rewrite stamped_ids, <- Hrows; exact Hdistinct).
      pose proof (deactivation_effect today _ Hids) as Hsecond.
      destruct (greatest_id (activated_questions (before ++ stamped true today p :: rest)))
        as [q|].
      * destruct Hsecond as (before' & rest' & Hrows' & Hq & _ & Hrun'). rewrite Hrun'.
        cbn [snd].
        pose proof (stamped_count false today before' rest' q) as Hcount.
        rewrite Hq, <- Hrows', Htwo in Hcount. lia.
      * destruct Hsecond as [Hzero _]. lia.
    + rewrite Hfirst. exact Hone.
Qed.

Lemma in_sequence_one_stays_activated_witness :
  activated_count (snd (activate_then_deactivate "2021-09-01" two_questions)) = 1.
Proof.
  refine (proj2 (in_sequence_one_stays_activated "2021-09-01" two_questions _ eq_refl)).
  simpl. repeat constructor; simpl; intuition discriminate.
Defined.

(** X5. On a table of distinct ids in which no inactive question precedes the
    activated question of greatest id, deactivating and then activating gives
    the turn back to the question it was taken from: that question is
    activated again, with today's date, and every other row is as it was. *)
Theorem turn_returns_to_same_question (today : string) (before rest : list Question.t)
    (q : Question.t) :
  NoDup (map Question.id (before ++ q :: rest)) ->
  (forall x, In x before -> Question.activated x = true) ->
  Question.activated q = true ->
  (forall x, In x (before ++ q :: rest) -> Question.activated x = true ->
             Question.id x <= Question.id q) ->
  deactivate_then_activate today (before ++ q :: rest)
  = (Normal {| affected := 1 |}, before ++ stamped true today q :: rest).
Proof.
  intros Hdistinct Hbefore Hq Hmax.
  unfold deactivate_then_activate, bind.
  rewrite (deactivation_at today before rest q Hdistinct Hq Hmax).
  rewrite (activation_at today before rest (stamped false today q)).
  - reflexivity.
  - rewrite stamped_ids. exact Hdistinct.
  - exact Hbefore.
  - reflexivity.
Qed.

Lemma turn_returns_to_same_question_witness :
  deactivate_then_activate "2021-09-01" ([] ++ Question.mk 1 "first" true "2021-08-31"
                                             :: [Question.mk 2 "second" false ""])
  = (Normal {| affected := 1 |},
     [] ++ stamped true "2021-09-01" (Question.mk 1 "first" true "2021-08-31")
        :: [Question.mk 2 "second" false ""]).
Proof.
  apply (turn_returns_to_same_question "2021-09-01" [] [Question.mk 2 "second" false ""]
           (Question.mk 1 "first" true "2021-08-31")).
  - simpl. repeat constructor; simpl; intuition discriminate.
  - intros x [].
  - reflexivity.
  - intros x [<- | [<- | []]]; simpl; intros; lia || discriminate.
Defined.

End QuestionCalls.

(** ** AuthService: further properties of the operations *)

Module AuthCalls.
Import AuthService AuthFacts.

Lemma none_exists {A} (test : A -> bool) (l : list A) :
  (forall x, In x l -> test x = false) -> existsb test l = false.
Proof.
  intros Hall. destruct (existsb test l) eqn:Hex; [|reflexivity].
  apply existsb_exists in Hex as (x & Hin & Hx). rewrite (Hall x Hin) in Hx. discriminate.
Qed.

Lemma find_past {A} (test : A -> bool) (l l' : list A) :
  find test l = None -> find test (l ++ l') = find test l'.
Proof.
  induction l as [|a l IH]; cbn [app find]; [reflexivity|].
  destruct (test a); [discriminate | exact IH].
Qed.

Lemma find_through_update {A} (test where_ : A -> bool) (set : A -> A) (l : list A) :
  (forall r, test (set r) = test r) ->
  find test (update where_ set l)
  = option_map (fun r => if where_ r then set r else r) (find test l).
Proof.
  intros Hkeep. unfold update. induction l as [|a l IH]; cbn [map find]; [reflexivity|].
  assert (Hsame : test (if where_ a then set a else a) = test a)
    by (destruct (where_ a); [apply Hkeep | reflexivity]).
  rewrite Hsame. destruct (test a); [reflexivity | exact IH].
Qed.

Lemma update_nowhere {A} (where_ : A -> bool) (set : A -> A) (l : list A) :
  (forall r, In r l -> where_ r = false) -> update where_ set l = l.
Proof.
  intros Hnone. unfold update. rewrite <- (map_id l) at 2. apply map_ext_in.
  intros r Hr. rewrite (Hnone r Hr). reflexivity.
Qed.

(** What [unclaimed] gives the lookups of [join]. *)
Lemma unclaimed_lookups (email nickname : string) (s : State) :
  unclaimed email nickname s ->
  findOne (verification_is email Mode_join) (verifications s) = None
  /\ existsb (fun u => String.eqb (User.email u) email) (users s) = false
  /\ existsb (fun u => String.eqb (User.nickname u) nickname) (users s) = false
  /\ existsb (fun v => option_string_eqb (Verification.nickname v) (Some nickname))
       (verifications s) = false.
Proof.
  intros [Husers Hverifications]. repeat split.
  - unfold findOne. destruct (find _ (verifications s)) as [v|] eqn:Hfind; [|reflexivity].
    apply find_some in Hfind as [Hin His]. apply verification_is_pair in His.
    destruct (Hverifications v Hin) as [_ Hpair]. contradiction.
  - apply none_exists. intros u Hu. apply String.eqb_neq. apply (Husers u Hu).
  - apply none_exists. intros u Hu. apply String.eqb_neq. apply (Husers u Hu).
  - apply none_exists. intros v Hv.
    destruct (option_string_eqb (Verification.nickname v) (Some nickname)) eqn:Heq;
      [|reflexivity].
    apply option_string_eqb_eq in Heq. destruct (Hverifications v Hv) as [Hnick _].
    contradiction.
Qed.

(** The [try] block of [join] on its insert branch, in full. *)
Lemma join_try_inserts_after_lookups (env : Env) (dto : JoinDto.t) (s : State) :
  findOne (verification_is (JoinDto.email dto) Mode_join) (verifications s) = None ->
  existsb (fun u => String.eqb (User.email u) (JoinDto.email dto)) (users s) = false ->
  existsb (fun u => String.eqb (User.nickname u) (JoinDto.nickname dto)) (users s) = false ->
  existsb (fun v => option_string_eqb (Verification.nickname v) (Some (JoinDto.nickname dto)))
    (verifications s) = false ->
  join_try env dto s
  = if transporter_delivers env (confirm_mail env (JoinDto.email dto) (createConfirmCode env))
    then (Normal tt,
          {| users := users s;
             verifications := verifications s ++ [joined_row env dto (nextVerificationId s)];
             nextUserId := nextUserId s;
             nextVerificationId := S (nextVerificationId s);
             outbox := outbox s
                       ++ [confirm_mail env (JoinDto.email dto) (createConfirmCode env)] |})
    else (Throw MailError,
          {| users := users s;
             verifications := verifications s ++ [joined_row env dto (nextVerificationId s)];
             nextUserId := nextUserId s;
             nextVerificationId := S (nextVerificationId s);
             outbox := outbox s |}).
Proof.
  intros Hnone Hemail Hnick Hver.
  open_calls. monad. rewrite Hnone. unfold findOne.
  rewrite <- !is_some_find in *. rewrite Hemail, Hnick, Hver. cbn.
  destruct (transporter_delivers env _); reflexivity.
Qed.

Lemma join_try_inserts (env : Env) (dto : JoinDto.t) (s : State) :
  unclaimed (JoinDto.email dto) (JoinDto.nickname dto) s ->
  join_try env dto s
  = if transporter_delivers env (confirm_mail env (JoinDto.email dto) (createConfirmCode env))
    then (Normal tt,
          {| users := users s;
             verifications := verifications s ++ [joined_row env dto (nextVerificationId s)];
             nextUserId := nextUserId s;
             nextVerificationId := S (nextVerificationId s);
             outbox := outbox s
                       ++ [confirm_mail env (JoinDto.email dto) (createConfirmCode env)] |})
    else (Throw MailError,
          {| users := users s;
             verifications := verifications s ++ [joined_row env dto (nextVerificationId s)];
             nextUserId := nextUserId s;
             nextVerificationId := S (nextVerificationId s);
             outbox := outbox s |}).
Proof.
  intros Hfree. destruct (unclaimed_lookups _ _ s Hfree) as (Hnone & Hemail & Hnick & Hver).
  apply join_try_inserts_after_lookups; assumption.
Qed.

(** The [try] block of [join] on its overwrite branch, in full. *)
Lemma join_try_overwrites (env : Env) (dto : JoinDto.t) (s : State) (found : Verification.t) :
  findOne (verification_is (JoinDto.email dto) Mode_join) (verifications s) = Some found ->
  let updated :=
    update (fun v => Verification.id v =? Verification.id found)
      (fun v => Verification.mk (Verification.id v) (JoinDto.email dto)
                  (Some (JoinDto.nickname dto)) (createConfirmCode env) (Verification.mode v)
                  (Some {| pending_password := encryptPassword env (JoinDto.password dto);
                           pending_is_admin :=
                             option_string_eqb (JoinDto.adminKey dto) (ADMIN_KEY env) |}))
      (verifications s) in
  join_try env dto s
  = if transporter_delivers env (confirm_mail env (JoinDto.email dto) (createConfirmCode env))
    then (Normal tt,
          {| users := users s; verifications := updated;
             nextUserId := nextUserId s; nextVerificationId := nextVerificationId s;
             outbox := outbox s
                       ++ [confirm_mail env (JoinDto.email dto) (createConfirmCode env)] |})
    else (Throw MailError,
          {| users := users s; verifications := updated;
             nextUserId := nextUserId s; nextVerificationId := nextVerificationId s;
             outbox := outbox s |}).
Proof.
  intros Hfound updated. subst updated. open_calls. monad. rewrite Hfound. cbn.
  destruct (transporter_delivers env _); reflexivity.
Qed.

Lemma joined_row_found (env : Env) (dto : JoinDto.t) (id : nat) (rows : list Verification.t) :
  findOne (verification_is (JoinDto.email dto) Mode_join) rows = None ->
  findOne (verification_is (JoinDto.email dto) Mode_join) (rows ++ [joined_row env dto id])
  = Some (joined_row env dto id).
Proof.
  intros Hnone. unfold findOne in *. rewrite (find_past _ _ _ Hnone). cbn [find].
  unfold verification_is, joined_row. cbn. rewrite String.eqb_refl. reflexivity.
Qed.

Lemma drawn_from_append (alphabet a b : string) :
  drawn_from alphabet (a ++ b)%string = drawn_from alphabet a && drawn_from alphabet b.
Proof.
  induction a as [|c a IH]; cbn [append drawn_from]; [reflexivity|].
  destruct (index 0 (String c EmptyString) alphabet); [exact IH | reflexivity].
Qed.

Lemma createConfirmCode_loop_digits (env : Env) (turns i : nat) (prefix : string) :
  (forall k, random_index env k < 10) ->
  drawn_from CHARS prefix = true ->
  drawn_from CHARS (createConfirmCode_loop env i turns prefix) = true.
Proof.
  intros Hdraw. revert i prefix.
  induction turns as [|turns IH]; intros i prefix Hprefix; cbn [createConfirmCode_loop];
    [exact Hprefix|].
  apply IH. rewrite drawn_from_append, Hprefix. cbn [andb].
  specialize (Hdraw i). generalize dependent (random_index env i). intros n Hn.
  do 10 (destruct n as [|n]; [reflexivity|]). lia.
Qed.

(** X6. When every draw is one of the ten indices, as
    [Math.floor(Math.random() * CHARS.length)] is, the confirm code is six
    characters long and each of them is a decimal digit. *)
Theorem createConfirmCode_six_digits (env : Env) :
  (forall k, random_index env k < 10) ->
  String.length (createConfirmCode env) = 6
  /\ drawn_from "0123456789" (createConfirmCode env) = true.
Proof.
  intros Hdraw. split.
  - apply createConfirmCode_length. exact Hdraw.
  - apply (createConfirmCode_loop_digits env VERIFY_NUMBER_LENGTH 0 "" Hdraw). reflexivity.
Qed.

Lemma createConfirmCode_six_digits_witness :
  String.length (createConfirmCode example_env_mail_down) = 6
  /\ drawn_from "0123456789" (createConfirmCode example_env_mail_down) = true.
Proof.
  apply (createConfirmCode_six_digits example_env_mail_down).
  intros k. cbv [example_env_mail_down random_index]. lia.
Defined.

Section Boundary.

Variable h : ErrorBoundary.

(** X7. When nobody holds the email or the nickname, [join] files exactly one
    verification, at the end of the table, under the next id and with mode
    join, carrying the nickname, the generated code, the hash of the password
    and the admin flag (the admin key compared with the configured one); it
    is the one found under (email, join); no user is created, so no user has
    the email yet. This is so whether or not the mail leaves. *)
Theorem join_files_one_verification (env : Env) (dto : JoinDto.t) (s : State) :
  unclaimed (JoinDto.email dto) (JoinDto.nickname dto) s ->
  let after := snd (join h env dto s) in
  verifications after = verifications s ++ [joined_row env dto (nextVerificationId s)]
  /\ nextVerificationId after = S (nextVerificationId s)
  /\ findOne (verification_is (JoinDto.email dto) Mode_join) (verifications after)
     = Some (joined_row env dto (nextVerificationId s))
  /\ users after = users s
  /\ findOne (fun u => String.eqb (User.email u) (JoinDto.email dto)) (users after) = None.
Proof.
  intros Hfree after. subst after. rewrite join_store.
  rewrite (join_try_inserts env dto s Hfree).
  destruct (unclaimed_lookups _ _ s Hfree) as (Hnone & Hemail & _ & _).
  assert (Hnobody : findOne (fun u => String.eqb (User.email u) (JoinDto.email dto)) (users s)
                    = None).
  { unfold findOne. destruct (find _ (users s)) eqn:Hfind; [|reflexivity].
    assert (Hsome : is_some (find (fun u => String.eqb (User.email u) (JoinDto.email dto))
                               (users s)) = true) by (rewrite Hfind; reflexivity).
    rewrite is_some_find in Hsome. congruence. }
  destruct (transporter_delivers env _); cbn [snd users verifications nextVerificationId];
    (repeat split; [apply joined_row_found; exact Hnone | exact Hnobody]).
Qed.

(** X8. A confirmation mail leaves only when the [try] block of [join]
    completes, and then exactly one: it goes to the email of the request and
    carries the very code that the verification found under (email, join)
    now holds. When the block throws, whatever it throws, no mail has left. *)
Theorem join_mails_the_code_on_file (env : Env) (dto : JoinDto.t) (s : State) :
  let after := snd (join h env dto s) in
  let code := createConfirmCode env in
  (fst (join_try env dto s) = Normal tt ->
   outbox after
   = outbox s ++ [{| from := EMAIL_ADDRESS env; to := JoinDto.email dto;
                     subject := subject (confirm_mail env (JoinDto.email dto) code);
                     html := ("인증번호: " ++ code)%string |}]
   /\ exists row,
        findOne (verification_is (JoinDto.email dto) Mode_join) (verifications after) = Some row
        /\ Verification.confirmCode row = code)
  /\ (forall err, fst (join_try env dto s) = Throw err -> outbox after = outbox s).
Proof.
  intros after code. subst after code. rewrite join_store.
  destruct (findOne (verification_is (JoinDto.email dto) Mode_join) (verifications s))
    as [found|] eqn:Hfound.
  - rewrite (join_try_overwrites env dto s found Hfound).
    destruct (transporter_delivers env _); cbn [fst snd outbox verifications].
    + split; [|discriminate]. intros _. split; [reflexivity|].
      eexists. split; [apply find_overwritten; exact Hfound | reflexivity].
    + split; [discriminate | reflexivity].
  - destruct (existsb (fun u => String.eqb (User.email u) (JoinDto.email dto)) (users s))
      eqn:Hemail.
    { rewrite join_try_email_taken; auto. cbn. split; [discriminate | reflexivity]. }
    destruct (existsb (fun u => String.eqb (User.nickname u) (JoinDto.nickname dto)) (users s))
      eqn:Hnick.
    { rewrite join_try_nickname_taken; auto; [|rewrite Hnick; reflexivity].
      cbn. split; [discriminate | reflexivity]. }
    destruct (existsb (fun v => option_string_eqb (Verification.nickname v)
                                  (Some (JoinDto.nickname dto))) (verifications s)) eqn:Hver.
    { rewrite join_try_nickname_taken; auto; [|rewrite Hnick, Hver; reflexivity].
      cbn. split; [discriminate | reflexivity]. }
    rewrite (join_try_inserts_after_lookups env dto s Hfound Hemail Hnick Hver).
    destruct (transporter_delivers env _); cbn [fst snd outbox verifications].
    + split; [|discriminate]. intros _. split; [reflexivity|].
      eexists. split; [apply joined_row_found; exact Hfound | reflexivity].
    + split; [discriminate | reflexivity].
Qed.

(** X9. Asking again before confirming: in a store the calls lead to, where
    nobody holds the email or the nickname, a [join] followed by a second
    [join] for the same email, with whatever nickname, password and admin
    key, leaves one more verification than before, not two: the row of the
    first call, under the id it was given, carrying the code, nickname, hash
    and admin flag of the second. *)
Theorem join_twice_files_once (env1 env2 : Env) (dto1 dto2 : JoinDto.t) (s : State) :
  reachable h s ->
  unclaimed (JoinDto.email dto1) (JoinDto.nickname dto1) s ->
  JoinDto.email dto2 = JoinDto.email dto1 ->
  let once := snd (join h env1 dto1 s) in
  let twice := snd (join h env2 dto2 once) in
  verifications twice = verifications s ++ [joined_row env2 dto2 (nextVerificationId s)]
  /\ users twice = users s.
Proof.
  intros Hreach Hfree Hsame once twice. subst once twice.
  apply reachable_well_formed in Hreach. destruct Hreach as (_ & Hbelow & _).
  destruct (unclaimed_lookups _ _ s Hfree) as (Hnone & _).
  rewrite !join_store.
  assert (Honce : verifications (snd (join_try env1 dto1 s))
                  = verifications s ++ [joined_row env1 dto1 (nextVerificationId s)]
                  /\ users (snd (join_try env1 dto1 s)) = users s).
  { rewrite (join_try_inserts env1 dto1 s Hfree).
    destruct (transporter_delivers env1 _); split; reflexivity. }
  destruct Honce as [Hrows Husers].
  assert (Hfound : findOne (verification_is (JoinDto.email dto2) Mode_join)
                     (verifications (snd (join_try env1 dto1 s)))
                   = Some (joined_row env1 dto1 (nextVerificationId s))).
  { rewrite Hrows, Hsame. apply joined_row_found. exact Hnone. }
  rewrite (join_try_overwrites env2 dto2 _ _ Hfound).
  assert (Hupdated :
            update (fun v => Verification.id v
                             =? Verification.id (joined_row env1 dto1 (nextVerificationId s)))
              (fun v => Verification.mk (Verification.id v) (JoinDto.email dto2)
                          (Some (JoinDto.nickname dto2)) (createConfirmCode env2)
                          (Verification.mode v)
                          (Some {| pending_password := encryptPassword env2 (JoinDto.password dto2);
                                   pending_is_admin :=
                                     option_string_eqb (JoinDto.adminKey dto2) (ADMIN_KEY env2) |}))
              (verifications (snd (join_try env1 dto1 s)))
            = verifications s ++ [joined_row env2 dto2 (nextVerificationId s)]).
  { rewrite Hrows. unfold update at 1. rewrite map_app. cbn [map joined_row Verification.id].
    rewrite Nat.eqb_refl. f_equal.
    apply (update_nowhere (fun v => Verification.id v =? nextVerificationId s)).
    intros r Hr. apply Nat.eqb_neq. specialize (Hbelow r Hr). lia. }
  destruct (transporter_delivers env2 _); cbn [snd verifications users];
    (split; [exact Hupdated | exact Husers]).
Qed.

Lemma delete_nowhere {A} (where_ : A -> bool) (l : list A) :
  (forall r, In r l -> where_ r = false) -> delete where_ l = l.
Proof.
  intros Hnone. unfold delete. induction l as [|a l IH]; cbn [filter]; [reflexivity|].
  rewrite (Hnone a (or_introl eq_refl)). cbn [negb]. f_equal.
  apply IH. intros r Hr. apply Hnone. right. exact Hr.
Qed.

Lemma unclaimed_no_pair (email nickname : string) (s : State) (v : Verification.t) :
  unclaimed email nickname s -> In v (verifications s) ->
  verification_is email Mode_join v = false.
Proof.
  intros [_ Hverifications] Hin.
  destruct (verification_is email Mode_join v) eqn:His; [|reflexivity].
  apply verification_is_pair in His. destruct (Hverifications v Hin) as [_ Hpair].
  contradiction.
Qed.

(** [confirm] with the generated code, on the store a first [join] left. *)
Lemma confirm_after_join (env : Env) (dto : JoinDto.t) (named : option Mode) (s joined : State) :
  unclaimed (JoinDto.email dto) (JoinDto.nickname dto) s ->
  users joined = users s ->
  verifications joined = verifications s ++ [joined_row env dto (nextVerificationId s)] ->
  nextUserId joined = nextUserId s ->
  fst (confirm_try (ConfirmDto.mk (JoinDto.email dto) (createConfirmCode env) named) joined)
  = Normal tt
  /\ users (snd (confirm_try (ConfirmDto.mk (JoinDto.email dto) (createConfirmCode env) named)
                   joined))
     = users s ++ [joined_user env dto (nextUserId s)]
  /\ verifications (snd (confirm_try (ConfirmDto.mk (JoinDto.email dto) (createConfirmCode env)
                                        named) joined))
     = verifications s.
Proof.
  intros Hfree Husers Hrows Hnext.
  assert (Hfound : findOne (verification_has_code (JoinDto.email dto) (createConfirmCode env)
                              Mode_join) (verifications joined)
                   = Some (joined_row env dto (nextVerificationId s))).
  { rewrite Hrows. unfold findOne. rewrite find_past.
    - cbn [find]. unfold verification_has_code, joined_row. cbn.
      rewrite !String.eqb_refl. reflexivity.
    - apply QuestionCalls.find_nowhere. intros v Hv.
      pose proof (unclaimed_no_pair _ _ s v Hfree Hv) as Hno.
      unfold verification_is in Hno. unfold verification_has_code.
      destruct (String.eqb (Verification.email v) (JoinDto.email dto)); [|reflexivity].
      cbn [andb] in Hno |- *. rewrite Hno. apply andb_false_r. }
  assert (Hallowed : user_insert_allowed (users joined) (JoinDto.email dto)
                       (JoinDto.nickname dto) = true).
  { rewrite Husers. unfold user_insert_allowed. apply negb_true_iff. apply none_exists.
    intros u Hu. destruct Hfree as [Hnobody _]. destruct (Hnobody u Hu) as [He Hn].
    apply orb_false_iff. split; apply String.eqb_neq; assumption. }
  unfold confirm_try. open_calls. monad.
  cbn [ConfirmDto.email ConfirmDto.confirmCode]. rewrite Hfound.
  cbn [joined_row Verification.email Verification.nickname Verification.user].
  rewrite Hallowed. cbn [fst snd users verifications with_verifications].
  rewrite Husers, Hrows, Hnext. split; [reflexivity|]. split; [reflexivity|].
  unfold delete. rewrite filter_app. cbn [filter].
  replace (verification_is (JoinDto.email dto) Mode_join
             (joined_row env dto (nextVerificationId s))) with true
    by (unfold verification_is, joined_row; cbn; rewrite String.eqb_refl; reflexivity).
  cbn [negb]. rewrite app_nil_r.
  apply (delete_nowhere (verification_is (JoinDto.email dto) Mode_join)).
  intros v Hv. exact (unclaimed_no_pair _ _ s v Hfree Hv).
Qed.

(** [login] on a store whose first user of the email is known. *)
Lemma login_of_first (env : Env) (dto : LoginDto.t) (s : State) (u : User.t) :
  findOne (fun x => String.eqb (User.email x) (LoginDto.email dto)) (users s) = Some u ->
  fst (login h env dto s)
  = if truthy (User.password u) && bcrypt_compare env (LoginDto.password dto) (User.password u)
    then Normal (Some u) else login_refused h.
Proof.
  intros Hfirst. unfold login, login_refused. open_calls. monad.
  unfold user_meets. unfold findOne in *. rewrite Hfirst. cbn.
  destruct (truthy (User.password u)); cbn.
  - destruct (bcrypt_compare env _ _); cbn.
    + rewrite Hfirst. reflexivity.
    + destruct (h UNAUTHORIZED_EXCEPTION); reflexivity.
  - destruct (h UNAUTHORIZED_EXCEPTION); reflexivity.
Qed.

(** X10. Registration, end to end: when nobody holds the email or the
    nickname, [join], then [confirm] with the generated code, then [login]
    with the password of the request returns the user that [confirm] made,
    of the next user id, with the email, the nickname, the hash made at
    [join] and the admin flag computed at [join], provided bcrypt accepts the
    password against that hash, which is not empty; the verification is gone
    and the verification table is as it was before [join]. A password that
    bcrypt rejects against the hash is refused. *)
Theorem register_then_login (env1 env3 : Env) (dto : JoinDto.t) (named : option Mode)
    (s : State) :
  unclaimed (JoinDto.email dto) (JoinDto.nickname dto) s ->
  encryptPassword env1 (JoinDto.password dto) <> "" ->
  bcrypt_compare env3 (JoinDto.password dto) (encryptPassword env1 (JoinDto.password dto)) = true ->
  let joined := snd (join h env1 dto s) in
  let confirmed :=
    confirm h (ConfirmDto.mk (JoinDto.email dto) (createConfirmCode env1) named) joined in
  let made := joined_user env1 dto (nextUserId s) in
  fst confirmed = Normal SUCCESS_RESPONSE
  /\ users (snd confirmed) = users s ++ [made]
  /\ verifications (snd confirmed) = verifications s
  /\ fst (login h env3 (LoginDto.mk (JoinDto.email dto) (JoinDto.password dto)) (snd confirmed))
     = Normal (Some made)
  /\ (forall wrong,
        bcrypt_compare env3 wrong (encryptPassword env1 (JoinDto.password dto)) = false ->
        fst (login h env3 (LoginDto.mk (JoinDto.email dto) wrong) (snd confirmed))
        = login_refused h).
Proof.
  intros Hfree Hhash Haccept joined confirmed made. subst joined confirmed made.
  assert (Hjoined : users (snd (join h env1 dto s)) = users s
                    /\ verifications (snd (join h env1 dto s))
                       = verifications s ++ [joined_row env1 dto (nextVerificationId s)]
                    /\ nextUserId (snd (join h env1 dto s)) = nextUserId s).
  { rewrite join_store, (join_try_inserts env1 dto s Hfree).
    destruct (transporter_delivers env1 _); repeat split. }
  destruct Hjoined as (Husers & Hrows & Hnext).
  destruct (confirm_after_join env1 dto named s _ Hfree Husers Hrows Hnext)
    as (Hdone & Hmade & Hgone).
  unfold confirm. rewrite guarded_block, Hdone. cbn [fst snd].
  split; [reflexivity|]. split; [exact Hmade|]. split; [exact Hgone|].
  assert (Hfirst : findOne (fun x => String.eqb (User.email x) (JoinDto.email dto))
                     (users (snd (confirm_try (ConfirmDto.mk (JoinDto.email dto)
                                                 (createConfirmCode env1) named)
                                    (snd (join h env1 dto s)))))
                   = Some (joined_user env1 dto (nextUserId s))).
  { rewrite Hmade. unfold findOne. rewrite find_past.
    - cbn [find joined_user User.email]. rewrite String.eqb_refl. reflexivity.
    - apply QuestionCalls.find_nowhere. intros u Hu. apply String.eqb_neq.
      destruct Hfree as [Hnobody _]. apply (Hnobody u Hu). }
  assert (Htruthy : truthy (encryptPassword env1 (JoinDto.password dto)) = true).
  { unfold truthy. apply negb_true_iff. apply String.eqb_neq. exact Hhash. }
  split.
  - rewrite (login_of_first env3 (LoginDto.mk (JoinDto.email dto) (JoinDto.password dto))
               _ _ Hfirst).
    cbn [LoginDto.password joined_user User.password].
    rewrite Htruthy, Haccept. reflexivity.
  - intros wrong Hreject.
    rewrite (login_of_first env3 (LoginDto.mk (JoinDto.email dto) wrong) _ _ Hfirst).
    cbn [LoginDto.password joined_user User.password].
    rewrite Hreject, andb_false_r. reflexivity.
Qed.

(** X11. [checkConfirmCode] writes to no store. It answers when some
    verification carries the email and the code (and the mode, when the
    request names one; any mode otherwise), and hands
    [UNAUTHORIZED_EXCEPTION] to the boundary when none does. *)
Theorem checkConfirmCode_reads_only (dto : ConfirmDto.t) (s : State) :
  let carries := fun v =>
    Verification.email v = ConfirmDto.email dto
    /\ Verification.confirmCode v = ConfirmDto.confirmCode dto
    /\ (forall mode, ConfirmDto.mode dto = Some mode -> Verification.mode v = mode) in
  snd (checkConfirmCode h dto s) = s
  /\ ((exists v, In v (verifications s) /\ carries v) ->
      fst (checkConfirmCode h dto s) = Normal SUCCESS_RESPONSE)
  /\ ((forall v, In v (verifications s) -> ~ carries v) ->
      fst (checkConfirmCode h dto s) = through_boundary h UNAUTHORIZED_EXCEPTION).
Proof.
  intros carries.
  set (test := fun v => String.eqb (Verification.email v) (ConfirmDto.email dto)
                        && String.eqb (Verification.confirmCode v) (ConfirmDto.confirmCode dto)
                        && match ConfirmDto.mode dto with
                           | Some mode => Mode_eqb (Verification.mode v) mode
                           | None => true
                           end).
  assert (Htest : forall v, test v = true <-> carries v).
  { intros v. unfold test, carries.
    rewrite !andb_true_iff, !String.eqb_eq.
    destruct (ConfirmDto.mode dto) as [mode|].
    - rewrite Mode_eqb_eq. split.
      + intros [[He Hc] Hm]. repeat split; auto. intros m Heq. congruence.
      + intros (He & Hc & Hm). auto.
    - split; [intros [[He Hc] _]; repeat split; auto; discriminate | tauto]. }
  assert (Hrun : checkConfirmCode h dto s
                 = (if is_some (find test (verifications s)) then Normal SUCCESS_RESPONSE
                    else through_boundary h UNAUTHORIZED_EXCEPTION, s)).
  { unfold checkConfirmCode. rewrite guarded_block. monad. unfold findOne. fold test.
    destruct (is_some (find test (verifications s))); reflexivity. }
  rewrite Hrun. cbn [fst snd]. split; [reflexivity|]. split.
  - intros (v & Hin & Hv). apply Htest in Hv.
    destruct (find_exists test _ v Hin Hv) as (w & Hw). rewrite Hw. reflexivity.
  - intros Hnone. rewrite QuestionCalls.find_nowhere; [reflexivity|].
    intros v Hin. destruct (test v) eqn:Hv; [|reflexivity].
    apply Htest in Hv. exfalso. exact (Hnone v Hin Hv).
Qed.

(** The [try] block of [changePassword], by what the lookup by id returns. *)
Lemma changePassword_runs (env : Env) (dto : ChangePasswordDto.t) (s : State) :
  changePassword h env dto s
  = match findOne (fun u => User.id u =? ChangePasswordDto.userId dto) (users s) with
    | None => (through_boundary h (ThrownString "User does not exist."), s)
    | Some u =>
        if truthy (User.password u) then
          if bcrypt_compare env (ChangePasswordDto.password dto) (User.password u) then
            (Normal SUCCESS_RESPONSE,
             with_users (update (fun x => User.id x =? ChangePasswordDto.userId dto)
                           (with_password (encryptPassword env (ChangePasswordDto.newPassword dto))))
               s)
          else (through_boundary h UNAUTHORIZED_EXCEPTION, s)
        else (through_boundary h (ThrownString "User does not exist."), s)
    end.
Proof.
  unfold changePassword. rewrite guarded_block. open_calls. monad. unfold user_meets.
  destruct (findOne _ (users s)) as [u|]; cbn; [|reflexivity].
  destruct (truthy (User.password u)); cbn; [|reflexivity].
  destruct (bcrypt_compare env _ _); reflexivity.
Qed.

(** X12. [changePassword] writes only when the current password is right:
    for an id no user has it hands 'User does not exist.' to the boundary,
    for a password bcrypt rejects against the stored hash it hands
    [UNAUTHORIZED_EXCEPTION], and in both cases the stores stay as they
    were. When bcrypt accepts, the rows of that id take the hash of the new
    password and nothing else changes: users of another id keep every
    column, and no verification is touched. *)
Theorem changePassword_needs_current_password (env : Env) (dto : ChangePasswordDto.t)
    (s : State) :
  let account := findOne (fun u => User.id u =? ChangePasswordDto.userId dto) (users s) in
  let after := snd (changePassword h env dto s) in
  (account = None ->
   changePassword h env dto s = (through_boundary h (ThrownString "User does not exist."), s))
  /\ (forall u, account = Some u -> User.password u <> "" ->
        bcrypt_compare env (ChangePasswordDto.password dto) (User.password u) = false ->
        changePassword h env dto s = (through_boundary h UNAUTHORIZED_EXCEPTION, s))
  /\ (forall u, account = Some u -> User.password u <> "" ->
        bcrypt_compare env (ChangePasswordDto.password dto) (User.password u) = true ->
        fst (changePassword h env dto s) = Normal SUCCESS_RESPONSE
        /\ users after
           = update (fun x => User.id x =? ChangePasswordDto.userId dto)
               (with_password (encryptPassword env (ChangePasswordDto.newPassword dto)))
               (users s)
        /\ (forall x, In x (users s) -> User.id x <> ChangePasswordDto.userId dto ->
                      In x (users after))
        /\ verifications after = verifications s).
Proof.
  intros account after. subst account after. rewrite changePassword_runs.
  split; [|split].
  - intros ->. reflexivity.
  - intros u -> Hhash Hreject. unfold truthy.
    apply String.eqb_neq in Hhash. rewrite Hhash, Hreject. reflexivity.
  - intros u -> Hhash Haccept. unfold truthy.
    apply String.eqb_neq in Hhash. rewrite Hhash, Haccept. cbn.
    repeat split. intros x Hx Hid. unfold update. apply in_map_iff. exists x.
    apply Nat.eqb_neq in Hid. rewrite Hid. auto.
Qed.

(** X13. After a [changePassword] that bcrypt let through, [login] with the
    account's email and the new password returns the account, now holding
    the hash of the new password, provided bcrypt accepts the new password
    against that hash, which is not empty, and the account is the first row
    both of its id and of its email. A password bcrypt rejects against the
    new hash, be it the old one, is refused. *)
Theorem changePassword_then_login (env env' : Env) (dto : ChangePasswordDto.t) (s : State)
    (u : User.t) :
  findOne (fun x => User.id x =? ChangePasswordDto.userId dto) (users s) = Some u ->
  findOne (fun x => String.eqb (User.email x) (User.email u)) (users s) = Some u ->
  User.password u <> "" ->
  bcrypt_compare env (ChangePasswordDto.password dto) (User.password u) = true ->
  let hash := encryptPassword env (ChangePasswordDto.newPassword dto) in
  hash <> "" ->
  bcrypt_compare env' (ChangePasswordDto.newPassword dto) hash = true ->
  let after := snd (changePassword h env dto s) in
  fst (login h env' (LoginDto.mk (User.email u) (ChangePasswordDto.newPassword dto)) after)
  = Normal (Some (with_password hash u))
  /\ (forall other, bcrypt_compare env' other hash = false ->
                    fst (login h env' (LoginDto.mk (User.email u) other) after)
                    = login_refused h).
Proof.
  intros Hid Hemail Hold Haccept hash Hhash Hnew after. subst after.
  assert (Hstate : snd (changePassword h env dto s)
                   = with_users (update (fun x => User.id x =? ChangePasswordDto.userId dto)
                                   (with_password hash)) s).
  { rewrite changePassword_runs, Hid. unfold truthy.
    apply String.eqb_neq in Hold. rewrite Hold, Haccept. reflexivity. }
  rewrite Hstate.
  assert (Hfirst : findOne (fun x => String.eqb (User.email x) (User.email u))
                     (users (with_users
                               (update (fun x => User.id x =? ChangePasswordDto.userId dto)
                                  (with_password hash)) s))
                   = Some (with_password hash u)).
  { cbn [users with_users]. unfold findOne in *. rewrite find_through_update; [|reflexivity].
    rewrite Hemail. cbn [option_map].
    apply find_some in Hid as [_ Hmeets]. rewrite Hmeets. reflexivity. }
  assert (Htruthy : truthy hash = true).
  { unfold truthy. apply negb_true_iff. apply String.eqb_neq. exact Hhash. }
  split.
  - rewrite (login_of_first env' (LoginDto.mk (User.email u) (ChangePasswordDto.newPassword dto))
               _ _ Hfirst).
    cbn [LoginDto.password with_password User.password]. rewrite Htruthy, Hnew. reflexivity.
  - intros other Hreject.
    rewrite (login_of_first env' (LoginDto.mk (User.email u) other) _ _ Hfirst).
    cbn [LoginDto.password with_password User.password].
    rewrite Hreject, andb_false_r. reflexivity.
Qed.

(** X14. After the reset of a password by mail ([changePasswordNotLoggedIn],
    then [confirmChangePasswordNotLoggedIn] with the generated code),
    [login] with the email and the new password returns the first user of
    that email, now holding the hash of the new password, provided bcrypt
    accepts the new password against that hash, which is not empty. *)
Theorem reset_then_login (env1 env2 env3 : Env) (email newPassword : string) (s : State)
    (u : User.t) :
  findOne (fun x => String.eqb (User.email x) email) (users s) = Some u ->
  let hash := encryptPassword env2 newPassword in
  hash <> "" ->
  bcrypt_compare env3 newPassword hash = true ->
  let requested := snd (changePasswordNotLoggedIn h env1 email s) in
  let confirmed :=
    snd (confirmChangePasswordNotLoggedIn h env2
           (ConfirmChangePasswordNotLoggedInDto.mk email (createConfirmCode env1) newPassword)
           requested) in
  fst (login h env3 (LoginDto.mk email newPassword) confirmed)
  = Normal (Some (with_password hash u)).
Proof.
  intros Hu hash Hhash Haccept requested confirmed. subst requested confirmed.
  pose proof (find_some _ _ Hu) as [Hin Hmail]. apply String.eqb_eq in Hmail.
  assert (Hreq : snd (changePasswordNotLoggedIn h env1 email s)
                 = snd (changePasswordNotLoggedIn_try env1 email s)).
  { unfold changePasswordNotLoggedIn. apply guarded_store. }
  destruct (changePasswordNotLoggedIn_try_files env1 email s) as (Husers & v & Hv & Hcode);
    [exists u; auto|].
  rewrite <- Hreq in Husers, Hv.
  destruct (find_exists _ _ v Hv Hcode) as (v0 & Hv0).
  rewrite (confirmChangePasswordNotLoggedIn_matched h env2
             (ConfirmChangePasswordNotLoggedInDto.mk email (createConfirmCode env1) newPassword)
             _ v0 Hv0).
  cbn [snd ConfirmChangePasswordNotLoggedInDto.email ConfirmChangePasswordNotLoggedInDto.password].
  rewrite Husers.
  match goal with
  | |- fst (login _ _ _ ?st) = _ =>
      assert (Hfirst : findOne (fun x => String.eqb (User.email x) email) (users st)
                       = Some (with_password hash u))
  end.
  { cbn [users]. unfold findOne in *. rewrite find_through_update; [|reflexivity].
    rewrite Hu. cbn [option_map user_meets].
    assert (Hmeets : String.eqb (User.email u) email = true)
      by (apply String.eqb_eq; exact Hmail).
    rewrite Hmeets. reflexivity. }
  rewrite (login_of_first env3 (LoginDto.mk email newPassword) _ _ Hfirst).
  cbn [LoginDto.password with_password User.password].
  assert (Htruthy : truthy hash = true).
  { unfold truthy. apply negb_true_iff. apply String.eqb_neq. exact Hhash. }
  rewrite Htruthy, Haccept. reflexivity.
Qed.


(** *** What a call does to the user table *)

Lemma join_try_users (env : Env) (dto : JoinDto.t) (s : State) :
  users (snd (join_try env dto s)) = users s
  /\ nextUserId (snd (join_try env dto s)) = nextUserId s.
Proof.
  destruct (findOne (verification_is (JoinDto.email dto) Mode_join) (verifications s))
    as [found|] eqn:Hfound.
  - rewrite (join_try_overwrites env dto s found Hfound).
    destruct (transporter_delivers env _); split; reflexivity.
  - destruct (existsb (fun u => String.eqb (User.email u) (JoinDto.email dto)) (users s))
      eqn:Hemail.
    { rewrite join_try_email_taken; auto. }
    destruct (existsb (fun u => String.eqb (User.nickname u) (JoinDto.nickname dto)) (users s))
      eqn:Hnick.
    { rewrite join_try_nickname_taken; auto. rewrite Hnick. reflexivity. }
    destruct (existsb (fun v => option_string_eqb (Verification.nickname v)
                                  (Some (JoinDto.nickname dto))) (verifications s)) eqn:Hver.
    { rewrite join_try_nickname_taken; auto. rewrite Hnick, Hver. reflexivity. }
    rewrite (join_try_inserts_after_lookups env dto s Hfound Hemail Hnick Hver).
    destruct (transporter_delivers env _); split; reflexivity.
Qed.

Lemma changePasswordNotLoggedIn_try_users (env : Env) (email : string) (s : State) :
  users (snd (changePasswordNotLoggedIn_try env email s)) = users s
  /\ nextUserId (snd (changePasswordNotLoggedIn_try env email s)) = nextUserId s.
Proof.
  open_calls. monad.
  destruct (findOne _ (users s)); cbn; [|split; reflexivity].
  destruct (findOne _ (verifications s)); cbn;
    destruct (transporter_delivers env _); split; reflexivity.
Qed.

(** A call either rewrites columns of users other than id, email, nickname and
    admin flag, or, and only [confirm] does, adds one user that the table
    admits, under the next id. *)
Lemma perform_users (env : Env) (c : Call) (s : State) :
  (exists where_ set,
      (forall u, user_identity (set u) = user_identity u)
      /\ users (perform h env c s) = update where_ set (users s)
      /\ nextUserId (perform h env c s) = nextUserId s)
  \/ (exists dto u,
        c = Confirm dto
        /\ users (perform h env c s) = users s ++ [u]
        /\ User.id u = nextUserId s
        /\ nextUserId (perform h env c s) = S (nextUserId s)
        /\ user_insert_allowed (users s) (User.email u) (User.nickname u) = true).
Proof.
  assert (Hsame : forall s', users s' = users s -> nextUserId s' = nextUserId s ->
                             exists where_ set,
                               (forall u, user_identity (set u) = user_identity u)
                               /\ users s' = update where_ set (users s)
                               /\ nextUserId s' = nextUserId s).
  { intros s' Hu Hn. exists (fun _ => false), (fun u => u).
    split; [reflexivity|]. split; [|exact Hn].
    rewrite Hu. symmetry. apply update_nowhere. reflexivity. }
  destruct c as [dto|dto|dto|dto|userId token|dto|email|dto]; cbn [perform].
  - left. rewrite join_store. apply Hsame; apply join_try_users.
  - unfold confirm. rewrite guarded_store. unfold confirm_try. open_calls. monad.
    destruct (findOne _ (verifications s)) as [found|]; cbn; [|left; apply Hsame; reflexivity].
    destruct (Verification.nickname found) as [nickname|]; cbn;
      [|left; apply Hsame; reflexivity].
    destruct (Verification.user found) as [pending|]; cbn; [|left; apply Hsame; reflexivity].
    destruct (user_insert_allowed (users s) (Verification.email found) nickname) eqn:Hallowed;
      cbn; [|left; apply Hsame; reflexivity].
    right. eexists dto, _. repeat split. exact Hallowed.
  - left. unfold checkConfirmCode. rewrite guarded_store. monad.
    destruct (is_some _); apply Hsame; reflexivity.
  - left. rewrite login_store. apply Hsame; reflexivity.
  - left. open_calls. monad. cbn. eexists _, _. split; [|split; reflexivity]. reflexivity.
  - left. rewrite changePassword_runs.
    destruct (findOne _ (users s)) as [u|]; [|apply Hsame; reflexivity].
    destruct (truthy (User.password u)); [|apply Hsame; reflexivity].
    destruct (bcrypt_compare env _ _); [|apply Hsame; reflexivity].
    cbn. eexists _, _. split; [|split; reflexivity]. reflexivity.
  - left. unfold changePasswordNotLoggedIn. rewrite guarded_store.
    apply Hsame; apply changePasswordNotLoggedIn_try_users.
  - left. unfold confirmChangePasswordNotLoggedIn. rewrite guarded_store.
    unfold confirmChangePasswordNotLoggedIn_try. open_calls. monad.
    destruct (findOne _ (verifications s)); cbn; [|apply Hsame; reflexivity].
    eexists _, _. split; [|split; reflexivity]. reflexivity.
Qed.

(** X16. No call removes a user or changes the id, the email, the nickname or
    the admin flag of one: after any call the user table is, in these
    columns, the table before followed by at most one new user, and a new
    user comes from [confirm] alone. The counter of user ids never goes
    down. *)
Theorem users_are_kept (env : Env) (c : Call) (s : State) :
  exists added,
    map user_identity (users (perform h env c s))
    = map user_identity (users s) ++ map user_identity added
    /\ List.length added <= 1
    /\ (added <> [] -> exists dto, c = Confirm dto)
    /\ nextUserId s <= nextUserId (perform h env c s).
Proof.
  destruct (perform_users env c s)
    as [(where_ & set & Hkeep & Hu & Hn) | (dto & u & Hc & Hu & _ & Hn & _)].
  - exists []. rewrite Hu, Hn, app_nil_r. split; [apply update_keeps; exact Hkeep|].
    split; [cbn; lia|]. split; [congruence | lia].
  - exists [u]. rewrite Hu, Hn, map_app. split; [reflexivity|].
    split; [cbn; lia|]. split; [eauto | lia].
Qed.

Lemma perform_users_distinct (env : Env) (c : Call) (s : State) :
  users_distinct s -> users_distinct (perform h env c s).
Proof.
  intros (D1 & D2 & D3 & D4).
  destruct (perform_users env c s)
    as [(where_ & set & Hkeep & Hu & Hn) | (dto & u & Hc & Hu & Hid & Hn & Hallowed)];
    unfold users_distinct; rewrite Hu, Hn.
  - assert (Hcolumns : forall x, User.id (set x) = User.id x
                                 /\ User.email (set x) = User.email x
                                 /\ User.nickname (set x) = User.nickname x).
    { intros x. specialize (Hkeep x). unfold user_identity in Hkeep.
      inversion Hkeep. auto. }
    repeat split.
    + rewrite update_keeps; [exact D1 | intros x; apply Hcolumns].
    + intros x Hx. apply in_update in Hx as (r & Hr & [[_ ->] | [_ ->]]); [|auto].
      destruct (Hcolumns r) as (-> & _). auto.
    + rewrite update_keeps; [exact D3 | intros x; apply Hcolumns].
    + rewrite update_keeps; [exact D4 | intros x; apply Hcolumns].
  - unfold user_insert_allowed in Hallowed. apply negb_true_iff in Hallowed.
    assert (Hfresh : forall x, In x (users s) ->
                               User.email x <> User.email u /\ User.nickname x <> User.nickname u).
    { intros x Hx.
      assert (Hx' : String.eqb (User.email x) (User.email u)
                    || String.eqb (User.nickname x) (User.nickname u) = false).
      { destruct (String.eqb (User.email x) (User.email u)
                  || String.eqb (User.nickname x) (User.nickname u)) eqn:Hor; [|reflexivity].
        assert (existsb (fun y => String.eqb (User.email y) (User.email u)
                                  || String.eqb (User.nickname y) (User.nickname u)) (users s)
                = true) by (apply existsb_exists; eauto).
        congruence. }
      apply orb_false_iff in Hx' as [He Hn']. split; apply String.eqb_neq; assumption. }
    repeat split.
    + apply NoDup_map_snoc; [exact D1|]. intros Hin.
      apply in_map_iff in Hin as (x & Hx & Hin). apply D2 in Hin. lia.
    + intros x Hx. apply in_app_or in Hx as [Hx | [<- | []]]; [apply D2 in Hx|]; lia.
    + apply NoDup_map_snoc; [exact D3|]. intros Hin.
      apply in_map_iff in Hin as (x & Hx & Hin). destruct (Hfresh x Hin). contradiction.
    + apply NoDup_map_snoc; [exact D4|]. intros Hin.
      apply in_map_iff in Hin as (x & Hx & Hin). destruct (Hfresh x Hin). contradiction.
Qed.

(** Given the uniqueness the user table enforces: in every store the calls
    lead to, no two users share an id, an email
    or a nickname, and every user id is below the counter: the lookups by
    email, by nickname and by id that the service makes have at most one
    user to return. *)
Theorem reachable_users_distinct (s : State) :
  reachable h s ->
  users_distinct s
  /\ (forall u u', In u (users s) -> In u' (users s) ->
        User.email u = User.email u' \/ User.nickname u = User.nickname u'
        \/ User.id u = User.id u' -> u = u').
Proof.
  intros Hreach.
  assert (Hdistinct : users_distinct s).
  { induction Hreach as [|s env c _ IH].
    - unfold users_distinct, initial. cbn.
      split; [constructor|]. split; [intros u []|]. split; constructor.
    - apply perform_users_distinct. exact IH. }
  split; [exact Hdistinct|].
  destruct Hdistinct as (D1 & _ & D3 & D4).
  intros u u' Hu Hu' [He | [Hn | Hi]].
  - exact (NoDup_map_same User.email _ u u' D3 Hu Hu' He).
  - exact (NoDup_map_same User.nickname _ u u' D4 Hu Hu' Hn).
  - exact (NoDup_map_same User.id _ u u' D1 Hu Hu' Hi).
Qed.

(** X17. In every store the calls lead to, verification ids are distinct and
    below the counter; a change_password verification is for the email of a
    user; a join verification is for an email that no user has, and carries
    a nickname and the pending payload. *)
Theorem reachable_verifications_shape (s : State) :
  reachable h s ->
  NoDup (map Verification.id (verifications s))
  /\ (forall v, In v (verifications s) ->
        Verification.id v < nextVerificationId s
        /\ (Verification.mode v = Mode_change_password ->
            exists u, In u (users s) /\ User.email u = Verification.email v)
        /\ (Verification.mode v = Mode_join ->
            (forall u, In u (users s) -> User.email u <> Verification.email v)
            /\ Verification.nickname v <> None /\ Verification.user v <> None)).
Proof.
  intros Hreach. apply reachable_well_formed in Hreach.
  destruct Hreach as (W1 & W2 & _ & W4 & W5 & W6).
  split; [exact W1|]. intros v Hv. split; [exact (W2 v Hv)|]. split; [exact (W4 v Hv)|].
  intros Hmode. split; [exact (W5 v Hv Hmode)|].
  destruct (W6 v Hv Hmode) as (nickname & pending & -> & ->). split; discriminate.
Qed.

(** *** Verifications of other emails *)

Lemma kept_in_update {A} (where_ : A -> bool) (set : A -> A) (l : list A) (x : A) :
  In x l -> where_ x = false -> In x (update where_ set l).
Proof.
  intros Hin Hno. unfold update. apply in_map_iff. exists x. rewrite Hno. auto.
Qed.

Lemma kept_in_delete {A} (where_ : A -> bool) (l : list A) (x : A) :
  In x l -> where_ x = false -> In x (delete where_ l).
Proof.
  intros Hin Hno. unfold delete. apply filter_In. rewrite Hno. auto.
Qed.

Lemma other_email_not_filed (email : string) (mode : Mode) (v : Verification.t) :
  Verification.email v <> email -> verification_is email mode v = false.
Proof.
  intros Hother. unfold verification_is. apply String.eqb_neq in Hother.
  rewrite Hother. reflexivity.
Qed.

(** X18. In a store the calls lead to, a call leaves every verification of
    another email exactly as it was: [join], [confirm],
    [changePasswordNotLoggedIn] and [confirmChangePasswordNotLoggedIn] write
    only verifications of the email they are given, and the other calls
    write none. *)
Theorem other_emails_untouched (env : Env) (c : Call) (s : State) (v : Verification.t) :
  reachable h s ->
  In v (verifications s) ->
  verification_email_of c <> Some (Verification.email v) ->
  In v (verifications (perform h env c s)).
Proof.
  intros Hreach Hv Hother. apply reachable_well_formed in Hreach.
  destruct Hreach as (W1 & _).
  assert (Hnot_found : forall email mode found,
             Verification.email v <> email ->
             findOne (verification_is email mode) (verifications s) = Some found ->
             (Verification.id v =? Verification.id found) = false).
  { intros email mode found Hemail Hfound. apply Nat.eqb_neq. intros Hid.
    apply find_some in Hfound as [Hin His]. apply verification_is_pair in His.
    assert (v = found) by exact (NoDup_map_same Verification.id _ v found W1 Hv Hin Hid).
    subst found. unfold pair_of in His. inversion His. contradiction. }
  destruct c as [dto|dto|dto|dto|userId token|dto|email|dto];
    cbn [perform verification_email_of] in *.
  - assert (Hemail : Verification.email v <> JoinDto.email dto) by congruence.
    rewrite join_store.
    destruct (findOne (verification_is (JoinDto.email dto) Mode_join) (verifications s))
      as [found|] eqn:Hfound.
    + rewrite (join_try_overwrites env dto s found Hfound).
      destruct (transporter_delivers env _); cbn [snd verifications];
        (apply kept_in_update; [exact Hv | exact (Hnot_found _ _ _ Hemail Hfound)]).
    + destruct (existsb (fun u => String.eqb (User.email u) (JoinDto.email dto)) (users s))
        eqn:Hmail.
      { rewrite join_try_email_taken; auto. }
      destruct (existsb (fun u => String.eqb (User.nickname u) (JoinDto.nickname dto)) (users s))
        eqn:Hnick.
      { rewrite join_try_nickname_taken; auto. rewrite Hnick. reflexivity. }
      destruct (existsb (fun x => option_string_eqb (Verification.nickname x)
                                    (Some (JoinDto.nickname dto))) (verifications s)) eqn:Hver.
      { rewrite join_try_nickname_taken; auto. rewrite Hnick, Hver. reflexivity. }
      rewrite (join_try_inserts_after_lookups env dto s Hfound Hmail Hnick Hver).
      destruct (transporter_delivers env _); cbn [snd verifications];
        apply in_or_app; left; exact Hv.
  - assert (Hemail : Verification.email v <> ConfirmDto.email dto) by congruence.
    unfold confirm. rewrite guarded_store. unfold confirm_try. open_calls. monad.
    destruct (findOne _ (verifications s)) as [found|] eqn:Hfound; cbn; [|exact Hv].
    destruct (Verification.nickname found) as [nickname|]; cbn; [|exact Hv].
    destruct (Verification.user found) as [pending|]; cbn; [|exact Hv].
    destruct (user_insert_allowed (users s) (Verification.email found) nickname); cbn;
      [|exact Hv].
    apply kept_in_delete; [exact Hv|]. apply other_email_not_filed.
    apply find_some in Hfound as [_ Hcode].
    apply verification_has_code_spec in Hcode as (-> & _). exact Hemail.
  - unfold checkConfirmCode. rewrite guarded_store. monad.
    destruct (is_some _); exact Hv.
  - rewrite login_store. exact Hv.
  - open_calls. monad. exact Hv.
  - rewrite changePassword_runs.
    destruct (findOne _ (users s)) as [u|]; [|exact Hv].
    destruct (truthy (User.password u)); [|exact Hv].
    destruct (bcrypt_compare env _ _); exact Hv.
  - assert (Hemail : Verification.email v <> email) by congruence.
    unfold changePasswordNotLoggedIn. rewrite guarded_store.
    unfold changePasswordNotLoggedIn_try. open_calls. monad.
    destruct (findOne _ (users s)); cbn; [|exact Hv].
    destruct (findOne (verification_is email Mode_change_password) (verifications s))
      as [found|] eqn:Hfound; cbn.
    + destruct (transporter_delivers env _); cbn;
        (apply kept_in_update; [exact Hv | exact (Hnot_found _ _ _ Hemail Hfound)]).
    + destruct (transporter_delivers env _); cbn; apply in_or_app; left; exact Hv.
  - assert (Hemail : Verification.email v <> ConfirmChangePasswordNotLoggedInDto.email dto)
      by congruence.
    unfold confirmChangePasswordNotLoggedIn. rewrite guarded_store.
    unfold confirmChangePasswordNotLoggedIn_try. open_calls. monad.
    destruct (findOne _ (verifications s)); cbn; [|exact Hv].
    apply kept_in_delete; [exact Hv|]. apply other_email_not_filed. exact Hemail.
Qed.

(** X19. [changePasswordNotLoggedIn] for an email no user has hands 'User
    email does not exist.' to the boundary, files nothing and mails nothing.
    For the email of a user it leaves, whether or not the mail leaves, a
    verification found under (email, change_password) that carries the
    generated code, adding a row only if none was filed, and it touches no
    user; the mail, when it leaves, is the one for that email and that
    code. *)
Theorem reset_request_files_the_code (env : Env) (email : string) (s : State) :
  let after := snd (changePasswordNotLoggedIn h env email s) in
  let code := createConfirmCode env in
  let filed := findOne (verification_is email Mode_change_password) (verifications s) in
  ((forall u, In u (users s) -> User.email u <> email) ->
   changePasswordNotLoggedIn h env email s
   = (through_boundary h (ThrownString "User email does not exist."), s))
  /\ ((exists u, In u (users s) /\ User.email u = email) ->
      (exists row,
          findOne (verification_is email Mode_change_password) (verifications after) = Some row
          /\ Verification.confirmCode row = code)
      /\ List.length (verifications after)
         = List.length (verifications s) + (if is_some filed then 0 else 1)
      /\ users after = users s
      /\ outbox after
         = if transporter_delivers env (confirm_mail env email code)
           then outbox s ++ [confirm_mail env email code] else outbox s).
Proof.
  intros after code filed. subst after code filed. split.
  - intros Hnobody. unfold changePasswordNotLoggedIn. rewrite guarded_block.
    unfold changePasswordNotLoggedIn_try. open_calls. monad. unfold findOne.
    rewrite QuestionCalls.find_nowhere; [reflexivity|].
    intros u Hu. apply String.eqb_neq. exact (Hnobody u Hu).
  - intros (u & Hu & Hmail).
    destruct (find_exists (fun x => String.eqb (User.email x) email) (users s) u Hu)
      as (first & Hfirst); [apply String.eqb_eq; exact Hmail|].
    unfold changePasswordNotLoggedIn. rewrite guarded_store.
    unfold changePasswordNotLoggedIn_try. open_calls. monad. unfold findOne in *.
    rewrite Hfirst. cbn.
    destruct (find (verification_is email Mode_change_password) (verifications s))
      as [found|] eqn:Hfound; cbn.
    + assert (Hafter : exists row,
                 find (verification_is email Mode_change_password)
                   (update (fun v => Verification.id v =? Verification.id found)
                      (fun v => Verification.mk (Verification.id v) (Verification.email v)
                                  (Verification.nickname v) (createConfirmCode env)
                                  (Verification.mode v) (Verification.user v))
                      (verifications s)) = Some row
                 /\ Verification.confirmCode row = createConfirmCode env).
      { rewrite find_through_update; [|reflexivity]. rewrite Hfound. cbn [option_map].
        rewrite Nat.eqb_refl. eexists. split; reflexivity. }
      destruct (transporter_delivers env _); cbn;
        (split; [exact Hafter|]); rewrite update_length; repeat split; lia.
    + assert (Hafter : exists row,
                 find (verification_is email Mode_change_password)
                   (verifications s
                    ++ [Verification.mk (nextVerificationId s) email None (createConfirmCode env)
                          Mode_change_password None]) = Some row
                 /\ Verification.confirmCode row = createConfirmCode env).
      { rewrite (find_past _ _ _ Hfound). cbn [find]. unfold verification_is at 1. cbn.
        rewrite String.eqb_refl. eexists. split; reflexivity. }
      destruct (transporter_delivers env _); cbn;
        (split; [exact Hafter|]); rewrite length_app; repeat split.
Qed.

(** *** A code works once *)

Lemma no_code_after_delete (email code : string) (mode : Mode) (rows : list Verification.t) :
  find (verification_has_code email code mode) (delete (verification_is email mode) rows) = None.
Proof.
  apply QuestionCalls.find_nowhere. intros v Hv. unfold delete in Hv.
  apply filter_In in Hv as [_ Hkept]. apply negb_true_iff in Hkept.
  unfold verification_is in Hkept. unfold verification_has_code.
  destruct (String.eqb (Verification.email v) email); [|reflexivity].
  cbn [andb] in Hkept |- *. rewrite Hkept. apply andb_false_r.
Qed.

(** X20. A confirm code works once. When the [try] block of [confirm] has
    completed, the same request sent again finds no verification: it hands
    'Verification does not exists.' to the boundary and changes nothing, so
    no second user is made. The same holds of
    [confirmChangePasswordNotLoggedIn]: once it has completed, the same code
    changes no password again. *)
Theorem code_works_once (env : Env) (s : State) :
  (forall dto,
      fst (confirm_try dto s) = Normal tt ->
      confirm h dto (snd (confirm h dto s))
      = (through_boundary h (ThrownString "Verification does not exists."),
         snd (confirm h dto s)))
  /\ (forall dto,
        fst (confirmChangePasswordNotLoggedIn_try env dto s) = Normal tt ->
        confirmChangePasswordNotLoggedIn h env dto
          (snd (confirmChangePasswordNotLoggedIn h env dto s))
        = (through_boundary h (ThrownString "Verification does not exists."),
           snd (confirmChangePasswordNotLoggedIn h env dto s))).
Proof.
  split.
  - intros dto Hdone.
    assert (Hgone : findOne (verification_has_code (ConfirmDto.email dto)
                               (ConfirmDto.confirmCode dto) Mode_join)
                      (verifications (snd (confirm h dto s))) = None).
    { unfold confirm. rewrite guarded_store. revert Hdone.
      unfold confirm_try. open_calls. monad.
      destruct (findOne _ (verifications s)) as [found|] eqn:Hfound; cbn; [|discriminate].
      destruct (Verification.nickname found) as [nickname|]; cbn; [|discriminate].
      destruct (Verification.user found) as [pending|]; cbn; [|discriminate].
      destruct (user_insert_allowed (users s) (Verification.email found) nickname); cbn;
        [|discriminate].
      intros _. apply find_some in Hfound as [_ Hcode].
      apply verification_has_code_spec in Hcode as (-> & _).
      apply no_code_after_delete. }
    unfold confirm at 1. rewrite guarded_block.
    unfold confirm_try. monad. rewrite Hgone. reflexivity.
  - intros dto Hdone.
    apply confirmChangePasswordNotLoggedIn_unmatched.
    unfold confirmChangePasswordNotLoggedIn. rewrite guarded_store. revert Hdone.
    unfold confirmChangePasswordNotLoggedIn_try. open_calls. monad.
    destruct (findOne _ (verifications s)) as [found|]; cbn; [|discriminate].
    intros _. apply no_code_after_delete.
Qed.

End Boundary.

(** *** The further properties at work on the example stores *)

Lemma join_mails_the_code_on_file_witness :
  outbox (snd (join exceptionHandler_of_spec example_env bob_join initial))
  = outbox initial
    ++ [{| from := EMAIL_ADDRESS example_env; to := JoinDto.email bob_join;
           subject := subject (confirm_mail example_env (JoinDto.email bob_join)
                                 (createConfirmCode example_env));
           html := ("인증번호: " ++ createConfirmCode example_env)%string |}].
Proof.
  apply (join_mails_the_code_on_file exceptionHandler_of_spec example_env bob_join initial).
  reflexivity.
Defined.

Lemma join_twice_files_once_witness :
  verifications (snd (join exceptionHandler_of_spec example_env carol_join_again
                        (snd (join exceptionHandler_of_spec example_env carol_join
                                after_bob_confirm))))
  = verifications after_bob_confirm
    ++ [joined_row example_env carol_join_again (nextVerificationId after_bob_confirm)].
Proof.
  refine (proj1 (join_twice_files_once exceptionHandler_of_spec example_env example_env
                   carol_join carol_join_again
                   after_bob_confirm after_bob_confirm_reachable _ eq_refl)).
  split.
  - intros u Hu. vm_compute in Hu. destruct Hu as [<- | []]. split; discriminate.
  - intros v Hv. vm_compute in Hv. destruct Hv.
Defined.

Lemma register_then_login_witness :
  fst (login exceptionHandler_throwing example_env
         (LoginDto.mk (JoinDto.email bob_join) (JoinDto.password bob_join))
         (snd (confirm exceptionHandler_throwing
                 (ConfirmDto.mk (JoinDto.email bob_join) (createConfirmCode example_env) None)
                 (snd (join exceptionHandler_throwing example_env bob_join initial)))))
  = Normal (Some (joined_user example_env bob_join (nextUserId initial))).
Proof.
  refine (proj1 (proj2 (proj2 (proj2
            (register_then_login exceptionHandler_throwing example_env example_env bob_join None
               initial _ _ eq_refl))))).
  - split; intros x [].
  - discriminate.
Defined.

Lemma changePassword_then_login_witness :
  fst (login exceptionHandler_throwing example_env (LoginDto.mk (User.email alice) "pw8")
         (snd (changePassword exceptionHandler_throwing example_env
                 (ChangePasswordDto.mk 1 "pw1" "pw8") example_state)))
  = Normal (Some (with_password (encryptPassword example_env "pw8") alice)).
Proof.
  refine (proj1 (changePassword_then_login exceptionHandler_throwing example_env example_env
                   (ChangePasswordDto.mk 1 "pw1" "pw8") example_state alice
                   eq_refl eq_refl _ eq_refl _ eq_refl)); discriminate.
Defined.

Lemma reset_then_login_witness :
  fst (login exceptionHandler_throwing example_env (LoginDto.mk "a@x.com" "pw8")
         (snd (confirmChangePasswordNotLoggedIn exceptionHandler_throwing example_env
                 (ConfirmChangePasswordNotLoggedInDto.mk "a@x.com"
                    (createConfirmCode example_env) "pw8")
                 (snd (changePasswordNotLoggedIn exceptionHandler_throwing example_env
                         "a@x.com" example_state)))))
  = Normal (Some (with_password (encryptPassword example_env "pw8") alice)).
Proof.
  refine (reset_then_login exceptionHandler_throwing example_env example_env example_env
            "a@x.com" "pw8" example_state alice eq_refl _ eq_refl).
  discriminate.
Defined.

Lemma checkConfirmCode_reads_only_witness :
  fst (checkConfirmCode exceptionHandler_throwing (ConfirmDto.mk "b@x.com" "123456" None)
         example_state)
  = Normal SUCCESS_RESPONSE.
Proof.
  refine (proj1 (proj2 (checkConfirmCode_reads_only exceptionHandler_throwing
                          (ConfirmDto.mk "b@x.com" "123456" None) example_state)) _).
  exists pending_bob. split; [left; reflexivity|].
  repeat split. discriminate.
Defined.

Lemma changePassword_needs_current_password_witness :
  changePassword exceptionHandler_throwing example_env (ChangePasswordDto.mk 1 "wrong" "pw8")
    example_state
  = (through_boundary exceptionHandler_throwing UNAUTHORIZED_EXCEPTION, example_state).
Proof.
  refine (proj1 (proj2 (changePassword_needs_current_password exceptionHandler_throwing
                          example_env (ChangePasswordDto.mk 1 "wrong" "pw8") example_state))
            alice eq_refl _ eq_refl).
  discriminate.
Defined.


Lemma reachable_users_distinct_witness : users_distinct after_carol_join_again.
Proof.
  exact (proj1 (reachable_users_distinct exceptionHandler_of_spec after_carol_join_again
                  after_carol_join_again_reachable)).
Defined.

Lemma reachable_verifications_shape_witness :
  NoDup (map Verification.id (verifications after_carol_join_again)).
Proof.
  exact (proj1 (reachable_verifications_shape exceptionHandler_of_spec after_carol_join_again
                  after_carol_join_again_reachable)).
Defined.

Lemma other_emails_untouched_witness :
  In carol_pending
    (verifications (perform exceptionHandler_of_spec example_env
                      (ChangePasswordNotLoggedIn "b@x.com") after_carol_join_again)).
Proof.
  apply (other_emails_untouched exceptionHandler_of_spec example_env
           (ChangePasswordNotLoggedIn "b@x.com") after_carol_join_again carol_pending).
  - exact after_carol_join_again_reachable.
  - vm_compute. left. reflexivity.
  - discriminate.
Defined.

Lemma reset_request_files_the_code_witness :
  changePasswordNotLoggedIn exceptionHandler_throwing example_env "z@x.com" example_state
  = (through_boundary exceptionHandler_throwing (ThrownString "User email does not exist."),
     example_state).
Proof.
  refine (proj1 (reset_request_files_the_code exceptionHandler_throwing example_env "z@x.com"
                   example_state) _).
  intros u [<- | []]. discriminate.
Defined.

Lemma code_works_once_witness :
  confirm exceptionHandler_throwing bob_confirm
    (snd (confirm exceptionHandler_throwing bob_confirm after_bob_join))
  = (through_boundary exceptionHandler_throwing (ThrownString "Verification does not exists."),
     snd (confirm exceptionHandler_throwing bob_confirm after_bob_join)).
Proof.
  apply (proj1 (code_works_once exceptionHandler_throwing example_env after_bob_join)).
  reflexivity.
Defined.

Lemma join_files_one_verification_witness :
  verifications (snd (join exceptionHandler_of_spec example_env carol_join after_bob_confirm))
  = verifications after_bob_confirm
    ++ [joined_row example_env carol_join (nextVerificationId after_bob_confirm)].
Proof.
  refine (proj1 (join_files_one_verification exceptionHandler_of_spec example_env carol_join
                   after_bob_confirm _)).
  split.
  - intros u Hu. vm_compute in Hu. destruct Hu as [<- | []]. split; discriminate.
  - intros v Hv. vm_compute in Hv. destruct Hv.
Defined.

End AuthCalls.
